(** * Fraud detection system: rule-based scorer and transaction generator

    A shallow embedding of [backend/main.py] (class [RuleBasedFraudDetection])
    and [backend/data_generator.py] (class [TransactionDataGenerator]), and
    the properties their specification states about them.

    Python's [float] is IEEE 754 binary64.  Every finite binary64 value is an
    integer multiple of [2^-1074], so a finite float is kept as that integer
    and each operation is the exact operation followed by rounding to the
    nearest value of the format, ties to even.  The two zeros are one value:
    no operation of the program tells them apart. *)

From Stdlib Require Import ZArith List String Ascii Bool Lia.
From Stdlib Require Import Floats.PrimFloat Floats.FloatOps Floats.SpecFloat.
From Stdlib Require Import Numbers.Cyclic.Int63.Uint63.
Import ListNotations.
Local Open Scope Z_scope.

(* ================================================================= *)
(** ** Binary64 arithmetic *)

Module PyFloat.

(** A finite float of value [v] is stored as [v * scale]. *)
Definition scale : Z := Eval vm_compute in 2 ^ 1074.

(** First magnitude that is no longer finite: [2^1024], scaled. *)
Definition overflow : Z := Eval vm_compute in 2 ^ 2098.

Inductive float : Type :=
| Finite (m : Z)
| Infinity (negative : bool)
| NaN.

(** [rne n d]: the integer nearest to [n / d], ties to the even one. *)
Definition rne (n d : Z) : Z :=
  let k := n / d in
  match 2 * (n mod d) ?= d with
  | Lt => k
  | Gt => k + 1
  | Eq => if Z.even k then k else k + 1
  end.

(** Spacing of the format around a magnitude whose integer part is [q]:
    53 significant bits, and never finer than one unit ([2^-1074]). *)
Definition grid (q : Z) : Z := 2 ^ Z.max 0 (Z.log2 q - 52).

(** [nearest n d]: [n / d] rounded to the nearest point of the format
    (exponent range unbounded above). *)
Definition nearest (n d : Z) : Z :=
  let g := grid (Z.abs n / d) in
  g * rne n (d * g).

(** The same two roundings of [n / (d * 2^k)], computed with shifts: the
    power of two is never divided by.  [rne_sh n d k] is
    [rne n (d * 2^k)] and [rnd n d k] is [nearest n (d * 2^k)]
    ([rne_sh_spec] and [rnd_spec] below); the operations are defined with
    them so that they can be evaluated. *)
Definition rne_sh (n d k : Z) : Z :=
  let n1 := Z.shiftr n k in
  let q := n1 / d in
  let r := Z.shiftl (n1 mod d) k + Z.land n (Z.ones k) in
  match 2 * r ?= Z.shiftl d k with
  | Lt => q
  | Gt => q + 1
  | Eq => if Z.even q then q else q + 1
  end.

Definition rnd (n d k : Z) : Z :=
  let q := Z.shiftr (Z.abs n) k / d in
  let e := Z.max 0 (Z.log2 q - 52) in
  Z.shiftl (rne_sh n d (k + e)) e.

(** [scale] is [2 ^ scale_bits]. *)
Definition scale_bits : Z := 1074.

Definition pack (r : Z) : float :=
  if overflow <=? Z.abs r then Infinity (r <? 0) else Finite r.

(** The float nearest to the rational [n / d]: what a decimal literal, the
    conversion of an [int] and the true division of two [int]s give. *)
Definition of_frac (n : Z) (d : positive) : float :=
  pack (rnd (n * scale) (Z.pos d) 0).

Definition of_int (n : Z) : float := of_frac n 1.

(** [dec n k] is the literal [n * 10^-k]: [dec 5 2] is [0.05]. *)
Definition dec (n : Z) (k : nat) : float :=
  of_frac n (Z.to_pos (10 ^ Z.of_nat k)).

(** *** Arithmetic *)

Definition fneg (x : float) : float :=
  match x with
  | Finite a => Finite (- a)
  | Infinity s => Infinity (negb s)
  | NaN => NaN
  end.

Definition fadd (x y : float) : float :=
  match x, y with
  | Finite a, Finite b => pack (rnd (a + b) 1 0)
  | Finite _, Infinity s => Infinity s
  | Infinity s, Finite _ => Infinity s
  | Infinity s, Infinity s' => if Bool.eqb s s' then Infinity s else NaN
  | _, _ => NaN
  end.

Definition fsub (x y : float) : float := fadd x (fneg y).

Definition fmul (x y : float) : float :=
  match x, y with
  | Finite a, Finite b => pack (rnd (a * b) 1 scale_bits)
  | Finite a, Infinity s =>
      if a =? 0 then NaN else Infinity (xorb (a <? 0) s)
  | Infinity s, Finite b =>
      if b =? 0 then NaN else Infinity (xorb s (b <? 0))
  | Infinity s, Infinity s' => Infinity (xorb s s')
  | _, _ => NaN
  end.

(** *** Comparisons: every comparison with [NaN] is false *)

Definition flt (x y : float) : bool :=
  match x, y with
  | Finite a, Finite b => a <? b
  | Finite _, Infinity s => negb s
  | Infinity s, Finite _ => s
  | Infinity s, Infinity s' => s && negb s'
  | _, _ => false
  end.

Definition feq (x y : float) : bool :=
  match x, y with
  | Finite a, Finite b => a =? b
  | Infinity s, Infinity s' => Bool.eqb s s'
  | _, _ => false
  end.

Definition fgt (x y : float) : bool := flt y x.
Definition fle (x y : float) : bool := flt x y || feq x y.
Definition fge (x y : float) : bool := fle y x.

(** The builtins [min(a, b)] and [max(a, b)]: the first argument is kept
    unless the second is strictly smaller (resp. larger). *)
Definition py_min (a b : float) : float := if flt b a then b else a.
Definition py_max (a b : float) : float := if fgt b a then b else a.

(** *** [round(x, ndigits)]

    CPython prints the exact value of [x] with [ndigits] fractional digits,
    correctly rounded (ties to even), and reads the decimal back.  Values
    that are not finite round to themselves, and so does every float when
    [ndigits] exceeds 323. *)
Definition NDIGITS_MAX : nat := 323.

Definition py_round (x : float) (ndigits : nat) : float :=
  match x with
  | Finite a =>
      if (NDIGITS_MAX <? ndigits)%nat then x
      else
        let p := 10 ^ Z.of_nat ndigits in
        pack (rnd (rne_sh (a * p) 1 scale_bits * scale) p 0)
  | _ => x
  end.

(** *** [x % y] on floats

    C's [fmod] (exact, sign of [x]), then moved by [y] when its sign
    differs from that of [y].  A zero divisor raises [ZeroDivisionError]
    in Python; the program only ever divides by the literal [100], and
    that case is given [NaN] here. *)
Definition fmod (x y : float) : float :=
  match x, y with
  | Finite a, Finite b => if b =? 0 then NaN else Finite (Z.rem a b)
  | Finite a, Infinity _ => Finite a
  | _, _ => NaN
  end.

Definition float_rem (vx wx : float) : float :=
  let md := fmod vx wx in
  if feq md (Finite 0) then md
  else if Bool.eqb (flt wx (Finite 0)) (flt md (Finite 0)) then md
  else fadd md wx.

(** *** Agreement with the machine format *)

(** The primitive float of the same value, for comparing this model with
    the kernel's binary64 on closed terms. *)
Definition to_prim (x : float) : PrimFloat.float :=
  match x with
  | Finite 0 => PrimFloat.zero
  | Finite (Z.pos p) =>
      let g := grid (Z.pos p) in
      SF2Prim (S754_finite false (Z.to_pos (Z.pos p / g)) (Z.log2 g - 1074))
  | Finite (Z.neg p) =>
      let g := grid (Z.pos p) in
      SF2Prim (S754_finite true (Z.to_pos (Z.pos p / g)) (Z.log2 g - 1074))
  | Infinity false => PrimFloat.infinity
  | Infinity true => PrimFloat.neg_infinity
  | NaN => PrimFloat.nan
  end.

End PyFloat.

Import PyFloat.

(* ================================================================= *)
(** ** Strings and dictionaries *)

(** [str.lower] and [str.upper].  The scorer is stated for any pair of case
    mappings, so that what is proved holds for Python's Unicode-aware ones;
    the instance below is their restriction to ASCII text and is the one the
    examples run with.  Both leave the empty string as it is. *)
Class CaseMap : Type := {
  lower : string -> string;
  upper : string -> string;
  lower_empty : lower EmptyString = EmptyString;
  upper_empty : upper EmptyString = EmptyString
}.

Definition ascii_lower (c : ascii) : ascii :=
  let n := N_of_ascii c in
  if (65 <=? n)%N && (n <=? 90)%N then ascii_of_N (n + 32) else c.

Definition ascii_upper (c : ascii) : ascii :=
  let n := N_of_ascii c in
  if (97 <=? n)%N && (n <=? 122)%N then ascii_of_N (n - 32) else c.

Fixpoint string_map (f : ascii -> ascii) (s : string) : string :=
  match s with
  | EmptyString => EmptyString
  | String c s' => String (f c) (string_map f s')
  end.

#[export] Instance ascii_case : CaseMap := {
  lower := string_map ascii_lower;
  upper := string_map ascii_upper;
  lower_empty := eq_refl;
  upper_empty := eq_refl
}.

(** A [dict] literal, in insertion order. *)
Definition dict (K V : Type) : Type := list (K * V).

Fixpoint lookup {K V : Type} (eqb : K -> K -> bool) (d : dict K V) (k : K)
  : option V :=
  match d with
  | [] => None
  | (k', v) :: d' => if eqb k k' then Some v else lookup eqb d' k
  end.

(** [d.get(k, default)] on a dictionary with string keys. *)
Definition dict_get {V : Type} (d : dict string V) (k : string) (default : V) : V :=
  match lookup String.eqb d k with
  | Some v => v
  | None => default
  end.

(** [field.get(default)] for a field of a transaction that may be absent. *)
Definition get {A : Type} (field : option A) (default : A) : A :=
  match field with
  | Some v => v
  | None => default
  end.

(* ================================================================= *)
(** ** Exceptions, the sources of randomness, and the monad of effects *)

Inductive key : Type :=
| KStr (s : string)
| KInt (n : Z).

Inductive exn : Type :=
| KeyError (k : key)
| IndexError
| ValueError.

Inductive result (A : Type) : Type :=
| Ok (a : A)
| Raise (e : exn).
Arguments Ok {A} a.
Arguments Raise {A} e.

(** An unbounded supply of raw draws, read in order. *)
Record stream : Type := mkStream {
  src : nat -> Z;
  pos : nat
}.

(** What the generator and the scorer read from outside: the state of the
    [random] module, of [os.urandom] (behind [uuid.uuid4]), of
    [numpy.random], and the clock. *)
Record world : Type := mkWorld {
  mt : stream;
  urandom : stream;
  numpy : stream;
  clock : Z   (* microseconds *)
}.

Definition M (A : Type) : Type := world -> result (A * world).

Definition ret {A : Type} (a : A) : M A := fun w => Ok (a, w).

Definition bind {A B : Type} (m : M A) (f : A -> M B) : M B :=
  fun w =>
    match m w with
    | Ok (a, w') => f a w'
    | Raise e => Raise e
    end.

Definition raise {A : Type} (e : exn) : M A := fun _ => Raise e.

Declare Scope m_scope.
Delimit Scope m_scope with M.
Notation "x <- m ;; k" := (bind m (fun x => k))
  (at level 100, m at next level, right associativity) : m_scope.
Notation "' pat <- m ;; k" := (bind m (fun x => match x with pat => k end))
  (at level 100, pat pattern, m at next level, right associativity) : m_scope.
Local Open Scope m_scope.

(** [d[k]]: raises [KeyError] on a key that is not there. *)
Definition getitem {V : Type} (d : dict string V) (k : string) : M V :=
  match lookup String.eqb d k with
  | Some v => ret v
  | None => raise (KeyError (KStr k))
  end.

Definition getitem_int {V : Type} (d : dict Z V) (k : Z) : M V :=
  match lookup Z.eqb d k with
  | Some v => ret v
  | None => raise (KeyError (KInt k))
  end.

Module PyRandom.

Definition advance (s : stream) : stream := mkStream (src s) (S (pos s)).

Definition draw_mt : M Z :=
  fun w => Ok (src (mt w) (pos (mt w)),
               mkWorld (advance (mt w)) (urandom w) (numpy w) (clock w)).

Definition draw_urandom : M Z :=
  fun w => Ok (src (urandom w) (pos (urandom w)),
               mkWorld (mt w) (advance (urandom w)) (numpy w) (clock w)).

Definition draw_numpy : M Z :=
  fun w => Ok (src (numpy w) (pos (numpy w)),
               mkWorld (mt w) (urandom w) (advance (numpy w)) (clock w)).

(** [random.random()]: 53 random bits [k], returned as [k / 2^53]. *)
Definition random : M float :=
  r <- draw_mt ;;
  ret (Finite ((r mod 2 ^ 53) * 2 ^ 1021)).

(** [random._randbelow(n)] for [n > 0]: some integer of [[0, n)]. *)
Definition randbelow (n : Z) : M Z :=
  r <- draw_mt ;;
  ret (r mod n).

(** [random.uniform(a, b)] is [a + (b - a) * random()]. *)
Definition uniform (a b : float) : M float :=
  u <- random ;;
  ret (fadd a (fmul (fsub b a) u)).

(** [random.randint(a, b)] is [a + _randbelow(b - a + 1)]; an empty range
    raises [ValueError]. *)
Definition randint (a b : Z) : M Z :=
  if b - a + 1 <=? 0 then raise ValueError
  else (r <- randbelow (b - a + 1) ;; ret (a + r)).

(** [random.choice(seq)]: [IndexError] on an empty sequence. *)
Definition choice {A : Type} (seq : list A) : M A :=
  match seq with
  | [] => raise IndexError
  | x :: _ =>
      i <- randbelow (Z.of_nat (List.length seq)) ;;
      ret (nth (Z.to_nat i) seq x)
  end.

(** [itertools.accumulate(weights)]. *)
Fixpoint accumulate_from (acc : float) (ws : list float) : list float :=
  match ws with
  | [] => []
  | w :: ws' => let acc' := fadd acc w in acc' :: accumulate_from acc' ws'
  end.

Definition accumulate (ws : list float) : list float :=
  match ws with
  | [] => []
  | w :: ws' => w :: accumulate_from w ws'
  end.

(** [bisect.bisect_right(a, x, lo, hi)]:
    [while lo < hi: mid = (lo + hi) // 2;
       if x < a[mid]: hi = mid  else: lo = mid + 1]
    The interval shrinks at each turn, so [hi - lo] turns are enough. *)
Fixpoint bisect_loop (fuel : nat) (a : list float) (x : float) (lo hi : nat)
  : nat :=
  match fuel with
  | O => lo
  | S fuel' =>
      if (lo <? hi)%nat then
        let mid := ((lo + hi) / 2)%nat in
        if flt x (nth mid a NaN) then bisect_loop fuel' a x lo mid
        else bisect_loop fuel' a x (mid + 1)%nat hi
      else lo
  end.

Definition bisect (a : list float) (x : float) (lo hi : nat) : nat :=
  bisect_loop (hi - lo) a x lo hi.

(** [random.choices(population, weights)[0]]. *)
Definition choices {A : Type} (population : list A) (weights : list float)
  : M A :=
  let n := List.length population in
  let cum_weights := accumulate weights in
  if negb (List.length cum_weights =? n)%nat then raise ValueError
  else
    match population with
    | [] => raise IndexError
    | x :: _ =>
        let total := fadd (last cum_weights NaN) (of_int 0) in
        if fle total (of_int 0) then raise ValueError
        else
          match total with
          | Finite _ =>
              u <- random ;;
              ret (nth (bisect cum_weights (fmul u total) 0 (n - 1)) population x)
          | _ => raise ValueError
          end
    end.

(** [numpy.random.poisson(lam)]: some natural number. *)
Definition poisson (lam : Z) : M Z :=
  r <- draw_numpy ;;
  ret (Z.abs r).

(** [datetime.now()]. *)
Definition datetime_now : M Z := fun w => Ok (clock w, w).

(** *** [str(uuid.uuid4())] *)

Definition hex_digit (n : Z) : ascii :=
  nth (Z.to_nat n) (list_ascii_of_string "0123456789abcdef") "0"%char.

(** ['%0<width>x' % n] for [0 <= n < 16^width]. *)
Fixpoint hex_fixed (width : nat) (n : Z) : string :=
  match width with
  | O => EmptyString
  | S w => hex_fixed w (n / 16) ++ String (hex_digit (n mod 16)) EmptyString
  end.

(** [uuid.UUID(bytes=os.urandom(16), version=4).int]: variant and version
    bits forced into the 128 random bits. *)
Definition uuid4_int (r : Z) : Z :=
  let i := r mod 2 ^ 128 in
  let i := Z.land i (Z.lnot (Z.shiftl 0xc000 48)) in
  let i := Z.lor i (Z.shiftl 0x8000 48) in
  let i := Z.land i (Z.lnot (Z.shiftl 0xf000 64)) in
  Z.lor i (Z.shiftl 4 76).

Definition uuid_str (i : Z) : string :=
  let hex := hex_fixed 32 i in
  substring 0 8 hex ++ "-" ++ substring 8 4 hex ++ "-" ++
  substring 12 4 hex ++ "-" ++ substring 16 4 hex ++ "-" ++
  substring 20 12 hex.

Definition uuid4 : M string :=
  r <- draw_urandom ;;
  ret (uuid_str (uuid4_int r)).

End PyRandom.
Import PyRandom.

Local Open Scope string_scope.

(* ================================================================= *)
(** ** The rule-based scorer ([main.py], class [RuleBasedFraudDetection]) *)

Module Scorer.

(** A transaction as the scorer reads it: a dictionary in which any of
    the five fields may be absent. *)
Record Transaction : Type := mkTransaction {
  amount : option float;
  merchant : option string;
  location : option string;
  time_of_day : option string;
  card_type : option string
}.

(** The result of [predict]. *)
Record Prediction : Type := mkPrediction {
  prediction : Z;
  is_anomaly : Z;
  confidence : float;
  risk_score : float
}.

(** The counters of a scorer: the only attributes written after
    [__init__]. *)
Record Detector : Type := mkDetector {
  total_transactions : Z;
  fraud_detected : Z;
  normal_transactions : Z
}.

(** The counters as [__init__] leaves them. *)
Definition init : Detector := mkDetector 0 0 0.

Definition high_amount_threshold : float := dec 20000 1.
Definition very_high_amount_threshold : float := dec 50000 1.

Definition merchant_risk_scores : dict string float :=
  [ ("online", dec 4 1); ("atm", dec 3 1); ("gas", dec 1 1);
    ("grocery", dec 5 2); ("restaurant", dec 15 2) ].

Definition location_risk_scores : dict string float :=
  [ ("CA", dec 3 1); ("NY", dec 25 2); ("FL", dec 35 2);
    ("TX", dec 2 1); ("IL", dec 15 2) ].

Definition time_risk_scores : dict string float :=
  [ ("night", dec 4 1); ("evening", dec 2 1); ("morning", dec 1 1);
    ("afternoon", dec 15 2) ].

Definition card_risk_scores : dict string float :=
  [ ("prepaid", dec 4 1); ("credit", dec 2 1); ("debit", dec 1 1) ].

(** [int(b)] for a [bool]. *)
Definition int_of_bool (b : bool) : Z := if b then 1 else 0.

Section WithCaseMap.
Context {case_map : CaseMap}.

(** The contribution of the amount tier: the running score after the
    [if]/[elif] chain on [amount]. *)
Definition amount_risk (risk_score amount : float) : float :=
  if fgt amount very_high_amount_threshold then fadd risk_score (dec 5 1)
  else if fgt amount high_amount_threshold then fadd risk_score (dec 3 1)
  else if flt amount (of_int 1) then fadd risk_score (dec 2 1)
  else risk_score.

Definition calculate_risk_score (transaction : Transaction) : float :=
  let risk_score := dec 0 1 in
  let amount := get (amount transaction) (of_int 0) in
  let risk_score := amount_risk risk_score amount in
  let merchant := lower (get (merchant transaction) EmptyString) in
  let risk_score :=
    fadd risk_score (dict_get merchant_risk_scores merchant (dec 2 1)) in
  let location := upper (get (location transaction) EmptyString) in
  let risk_score :=
    fadd risk_score (dict_get location_risk_scores location (dec 2 1)) in
  let time_of_day := lower (get (time_of_day transaction) EmptyString) in
  let risk_score :=
    fadd risk_score (dict_get time_risk_scores time_of_day (dec 2 1)) in
  let card_type := lower (get (card_type transaction) EmptyString) in
  let risk_score :=
    fadd risk_score (dict_get card_risk_scores card_type (dec 2 1)) in
  py_min risk_score (dec 10 1).

(** [anomalies.append(reason)] when the rule fires. *)
Definition append_if (rule : bool) (reason : string) (anomalies : list string)
  : list string :=
  if rule then anomalies ++ [reason] else anomalies.

(** The list of reasons [detect_anomalies] collects. *)
Definition anomalies_of (transaction : Transaction) : list string :=
  let amount := get (amount transaction) (of_int 0) in
  let merchant := lower (get (merchant transaction) EmptyString) in
  let time_of_day := lower (get (time_of_day transaction) EmptyString) in
  let anomalies := [] in
  let anomalies :=
    append_if ((merchant =? "online") && (time_of_day =? "night")
               && fgt amount (of_int 1000))
              "Large online purchase at night" anomalies in
  let anomalies :=
    append_if (feq (float_rem amount (of_int 100)) (of_int 0)
               && fgt amount (of_int 500))
              "Round number high amount" anomalies in
  let anomalies :=
    append_if ((merchant =? "atm") && fgt amount (of_int 800))
              "High ATM withdrawal" anomalies in
  let anomalies :=
    append_if (existsb (String.eqb merchant) ["grocery"; "gas"]
               && fgt amount (of_int 300))
              "Unusually high amount for merchant type" anomalies in
  anomalies.

Definition detect_anomalies (transaction : Transaction) : bool :=
  (0 <? List.length (anomalies_of transaction))%nat.

Definition predict (self : Detector) (transaction : Transaction)
  : Detector * Prediction :=
  let self := mkDetector (total_transactions self + 1)
                         (fraud_detected self) (normal_transactions self) in
  let risk_score := calculate_risk_score transaction in
  let is_anomaly := detect_anomalies transaction in
  let fraud_threshold := dec 6 1 in
  let is_fraud := fgt risk_score fraud_threshold || is_anomaly in
  let self :=
    if is_fraud then
      mkDetector (total_transactions self) (fraud_detected self + 1)
                 (normal_transactions self)
    else
      mkDetector (total_transactions self) (fraud_detected self)
                 (normal_transactions self + 1) in
  let confidence :=
    if is_fraud then py_min (dec 9 1) (fadd (dec 5 1) risk_score)
    else py_max (dec 7 1) (fsub (dec 10 1) risk_score) in
  (self,
   {| prediction := int_of_bool is_fraud;
      is_anomaly := int_of_bool is_anomaly;
      confidence := py_round confidence 3;
      risk_score := py_round risk_score 3 |}).

End WithCaseMap.

(** What [get_stats] reports. *)
Record Stats : Type := mkStats {
  stats_total_transactions : Z;
  stats_fraud_detected : Z;
  stats_normal_transactions : Z;
  fraud_rate : float;
  normal_rate : float;
  accuracy : float;
  precision : float;
  recall : float
}.

(** [a / b] on two [int]s with [b > 0]. *)
Definition int_truediv (a b : Z) : float := of_frac a (Z.to_pos b).

Definition get_stats (self : Detector) : M Stats :=
  let '(fraud_rate, normal_rate) :=
    if (0 <? total_transactions self)%Z then
      (fmul (int_truediv (fraud_detected self) (total_transactions self))
            (of_int 100),
       fmul (int_truediv (normal_transactions self) (total_transactions self))
            (of_int 100))
    else (of_int 0, of_int 0) in
  accuracy <- uniform (of_int 85) (of_int 95) ;;
  precision <- uniform (of_int 80) (of_int 90) ;;
  recall <- uniform (of_int 75) (of_int 85) ;;
  ret {| stats_total_transactions := total_transactions self;
         stats_fraud_detected := fraud_detected self;
         stats_normal_transactions := normal_transactions self;
         fraud_rate := py_round fraud_rate 2;
         normal_rate := py_round normal_rate 2;
         accuracy := py_round accuracy 2;
         precision := py_round precision 2;
         recall := py_round recall 2 |}.

(** The methods of a scorer, and the counters each leaves behind.  Only
    [predict] writes to [self]. *)
Inductive call : Type :=
| CalculateRiskScore (transaction : Transaction)
| DetectAnomalies (transaction : Transaction)
| Predict (transaction : Transaction)
| GetStats.

Definition step {case_map : CaseMap} (self : Detector) (c : call) : Detector :=
  match c with
  | Predict transaction => fst (predict self transaction)
  | CalculateRiskScore _ | DetectAnomalies _ | GetStats => self
  end.

(** [predict] called on each transaction of a list in turn. *)
Definition predict_all {case_map : CaseMap} (self : Detector)
                       (transactions : list Transaction) : Detector :=
  fold_left (fun self transaction => fst (predict self transaction))
            transactions self.

End Scorer.

(* ================================================================= *)
(** ** The transaction generator ([data_generator.py],
       class [TransactionDataGenerator]) *)

Module Generator.

(** A generated transaction: the six keys every path sets, and the two
    that [generate_user_session] adds. *)
Record Transaction : Type := mkTransaction {
  amount : float;
  merchant_type : string;
  location : string;
  time_of_day : string;
  card_type : string;
  user_profile : string;
  timestamp : option Z;
  session_id : option string
}.

Record Profile : Type := mkProfile {
  avg_daily_transactions : Z;
  preferred_merchants : list string;
  avg_amount : Z;
  fraud_probability : float
}.

Definition merchant_types : list string :=
  ["grocery"; "gas"; "restaurant"; "online"; "atm"; "pharmacy";
   "entertainment"; "travel"; "unknown"].

Definition time_periods : list string :=
  ["morning"; "afternoon"; "evening"; "night"].

Definition card_types : list string := ["debit"; "credit"; "prepaid"].

Definition locations : list string :=
  ["New York, NY"; "Los Angeles, CA"; "Chicago, IL"; "Houston, TX";
   "Phoenix, AZ"; "Philadelphia, PA"; "San Antonio, TX"; "San Diego, CA";
   "Dallas, TX"; "San Jose, CA"; "Austin, TX"; "Jacksonville, FL";
   "Fort Worth, TX"; "Columbus, OH"; "Charlotte, NC"; "San Francisco, CA";
   "Indianapolis, IN"; "Seattle, WA"; "Denver, CO"; "Boston, MA";
   "Unknown Location"; "Foreign Country"].

Definition merchant_amount_ranges : dict string (Z * Z) :=
  [ ("grocery", (5, 200)); ("gas", (20, 120)); ("restaurant", (8, 150));
    ("online", (10, 2000)); ("atm", (20, 500)); ("pharmacy", (5, 100));
    ("entertainment", (15, 300)); ("travel", (50, 5000));
    ("unknown", (1, 10000)) ]%Z.

Definition hourly_weights : dict Z float :=
  [ (0, dec 5 1); (1, dec 2 1); (2, dec 1 1); (3, dec 1 1); (4, dec 1 1);
    (5, dec 3 1); (6, dec 8 1); (7, dec 12 1); (8, dec 15 1);
    (9, dec 18 1); (10, dec 20 1); (11, dec 22 1); (12, dec 25 1);
    (13, dec 23 1); (14, dec 20 1); (15, dec 18 1); (16, dec 19 1);
    (17, dec 21 1); (18, dec 23 1); (19, dec 20 1); (20, dec 15 1);
    (21, dec 12 1); (22, dec 8 1); (23, dec 6 1) ]%Z.

Definition user_profiles : dict string Profile :=
  [ ("normal_user",
     mkProfile 3 ["grocery"; "gas"; "restaurant"] 75 (dec 1 3));
    ("heavy_user",
     mkProfile 8 ["online"; "restaurant"; "entertainment"] 120 (dec 5 3));
    ("business_user",
     mkProfile 12 ["travel"; "online"; "restaurant"] 300 (dec 8 3));
    ("suspicious_user",
     mkProfile 2 ["unknown"; "online"; "atm"] 500 (dec 15 2)) ].

Definition fraud_patterns : list string :=
  ["high_amount_unknown_merchant"; "multiple_small_amounts";
   "foreign_location"; "unusual_time"; "prepaid_card_pattern"].

(** [seq[-n:]]. *)
Definition lastn {A : Type} (n : nat) (seq : list A) : list A :=
  skipn (List.length seq - n) seq.

Definition _hour_to_period (hour : Z) : string :=
  if (6 <=? hour)%Z && (hour <? 12)%Z then "morning"
  else if (12 <=? hour)%Z && (hour <? 18)%Z then "afternoon"
  else if (18 <=? hour)%Z && (hour <? 22)%Z then "evening"
  else "night".

(** [[f(h) for h in hours]] with an [f] that may raise. *)
Fixpoint for_each {A B : Type} (f : A -> M B) (l : list A) : M (list B) :=
  match l with
  | [] => ret []
  | a :: l' => b <- f a ;; bs <- for_each f l' ;; ret (b :: bs)
  end.

Definition _generate_realistic_hour : M Z :=
  let hours := map Z.of_nat (seq 0 24) in
  weights <- for_each (getitem_int hourly_weights) hours ;;
  choices hours weights.

Definition _generate_normal_transaction (profile : Profile) : M Transaction :=
  merchant_type <- choice (preferred_merchants profile) ;;
  '(min_amount, max_amount) <- getitem merchant_amount_ranges merchant_type ;;
  base_amount <- uniform (of_int min_amount) (of_int max_amount) ;;
  jitter <- uniform (dec 5 1) (dec 15 1) ;;
  let amount :=
    fmul (fmul base_amount jitter) (of_frac (avg_amount profile) 75) in
  let amount := py_round (py_max amount (dec 1 2)) 2 in
  hour <- _generate_realistic_hour ;;
  let time_of_day := _hour_to_period hour in
  location <- choices locations
                      (repeat (of_int 5) 20 ++ [of_int 1; dec 1 1]) ;;
  card_type <- choices card_types [of_int 50; of_int 45; of_int 5] ;;
  ret {| amount := amount;
         merchant_type := merchant_type;
         location := location;
         time_of_day := time_of_day;
         card_type := card_type;
         user_profile := "normal";
         timestamp := None;
         session_id := None |}.

(** The five archetypes, and the fall-through default: the dictionaries
    the branches of [_generate_fraud_transaction] return, their values
    drawn in the order of the keys. *)
Definition high_amount_unknown_merchant : M Transaction :=
  a <- uniform (of_int 1000) (of_int 15000) ;;
  l <- choice ["Unknown Location"; "Foreign Country"] ;;
  c <- choice ["credit"; "prepaid"] ;;
  ret (mkTransaction (py_round a 2) "unknown" l "night" c "fraudulent"
                     None None).

Definition multiple_small_amounts : M Transaction :=
  a <- uniform (dec 1 2) (of_int 50) ;;
  m <- choice ["online"; "unknown"] ;;
  l <- choice (lastn 2 locations) ;;
  t <- choice ["night"; "evening"] ;;
  ret (mkTransaction (py_round a 2) m l t "prepaid" "fraudulent" None None).

Definition foreign_location : M Transaction :=
  a <- uniform (of_int 100) (of_int 3000) ;;
  m <- choice ["online"; "travel"; "unknown"] ;;
  t <- choice ["night"; "morning"] ;;
  c <- choice ["credit"; "prepaid"] ;;
  ret (mkTransaction (py_round a 2) m "Foreign Country" t c "fraudulent"
                     None None).

Definition unusual_time : M Transaction :=
  a <- uniform (of_int 200) (of_int 5000) ;;
  m <- choice ["atm"; "online"; "unknown"] ;;
  l <- choice (["Unknown Location"] ++ firstn 10 locations) ;;
  c <- choice card_types ;;
  ret (mkTransaction (py_round a 2) m l "night" c "fraudulent" None None).

Definition prepaid_card_pattern : M Transaction :=
  a <- uniform (of_int 50) (of_int 1000) ;;
  m <- choice ["online"; "atm"; "unknown"] ;;
  l <- choice locations ;;
  t <- choice time_periods ;;
  ret (mkTransaction (py_round a 2) m l t "prepaid" "fraudulent" None None).

Definition default_fraud_pattern : M Transaction :=
  a <- uniform (of_int 500) (of_int 10000) ;;
  ret (mkTransaction (py_round a 2) "unknown" "Unknown Location" "night"
                     "prepaid" "fraudulent" None None).

(** The [if]/[elif] chain on the pattern drawn. *)
Definition fraud_transaction_of (pattern : string) : M Transaction :=
  if pattern =? "high_amount_unknown_merchant" then
    high_amount_unknown_merchant
  else if pattern =? "multiple_small_amounts" then multiple_small_amounts
  else if pattern =? "foreign_location" then foreign_location
  else if pattern =? "unusual_time" then unusual_time
  else if pattern =? "prepaid_card_pattern" then prepaid_card_pattern
  else default_fraud_pattern.

Definition _generate_fraud_transaction : M Transaction :=
  pattern <- choice fraud_patterns ;;
  fraud_transaction_of pattern.

Definition generate_transaction (user_profile : option string)
  : M Transaction :=
  user_profile <-
    match user_profile with
    | None => choices (map fst user_profiles)
                      [of_int 70; of_int 20; of_int 8; of_int 2]
    | Some name => ret name
    end ;;
  profile <- getitem user_profiles user_profile ;;
  u <- random ;;
  let is_fraud_attempt := flt u (fraud_probability profile) in
  if is_fraud_attempt then _generate_fraud_transaction
  else _generate_normal_transaction profile.

(** [for _ in range(count): transactions.append(generate_transaction())]. *)
Fixpoint batch_loop (count : nat) (transactions : list Transaction)
  : M (list Transaction) :=
  match count with
  | O => ret transactions
  | S count' =>
      t <- generate_transaction None ;;
      batch_loop count' (transactions ++ [t])
  end.

Definition generate_batch_transactions (count : Z) : M (list Transaction) :=
  batch_loop (Z.to_nat count) [].

(** One minute, in the unit of the clock. *)
Definition minute : Z := 60000000.

(** The body of the loop of [generate_user_session], [session_length]
    times. *)
Fixpoint session_loop (session_length : nat) (user_profile : string)
                      (base_time : Z) (transactions : list Transaction)
  : M (list Transaction) :=
  match session_length with
  | O => ret transactions
  | S session_length' =>
      minutes <- randint 5 120 ;;
      let transaction_time := (base_time + minutes * minute)%Z in
      transaction <- generate_transaction (Some user_profile) ;;
      id <- uuid4 ;;
      let transaction :=
        {| amount := amount transaction;
           merchant_type := merchant_type transaction;
           location := location transaction;
           time_of_day := time_of_day transaction;
           card_type := card_type transaction;
           user_profile := Generator.user_profile transaction;
           timestamp := Some transaction_time;
           session_id := Some (substring 0 8 id) |} in
      session_loop session_length' user_profile transaction_time
                   (transactions ++ [transaction])
  end.

Definition generate_user_session (user_profile : string)
                                 (session_length : option Z)
  : M (list Transaction) :=
  profile <- getitem user_profiles user_profile ;;
  session_length <-
    match session_length with
    | None =>
        n <- poisson (avg_daily_transactions profile) ;;
        ret (Z.max 1 n)
    | Some n => ret n
    end ;;
  base_time <- datetime_now ;;
  session_loop (Z.to_nat session_length) user_profile base_time [].

End Generator.

(* ================================================================= *)
(** ** Peak-hour simulation ([data_generator.py], [simulate_peak_hours]) *)

Module Peak.
Import Generator.

(** [int(x)] on a float: truncation towards zero.  [NaN] raises
    [ValueError]; an infinity raises [OverflowError], which the exceptions
    of this development do not tell from [ValueError]. *)
Definition py_int (x : float) : M Z :=
  match x with
  | Finite m => ret (Z.quot m scale)
  | _ => raise ValueError
  end.

(** [d.get(k, default)] on a dictionary with integer keys. *)
Definition dict_get_int {V : Type} (d : dict Z V) (k : Z) (default : V) : V :=
  match lookup Z.eqb d k with
  | Some v => v
  | None => default
  end.

(** [t.hour] for the wall-clock time [t], counted in microseconds. *)
Definition hour_of (t : Z) : Z := (t / (60 * minute)) mod 24.

(** A transaction of the simulation: the generated one and the two keys
    added to it. *)
Record PeakTransaction : Type := mkPeakTransaction {
  transaction : Transaction;
  peak_hour : bool;
  volume_multiplier : float
}.

Record PeakHours : Type := mkPeakHours {
  hour : Z;
  expected_volume : Z;
  transactions : list PeakTransaction;
  peak_factor : float
}.

(** [for _ in range(peak_volume): ...]. *)
Fixpoint peak_loop (peak_volume : nat) (current_hour : Z)
                   (transactions : list PeakTransaction)
  : M (list PeakTransaction) :=
  match peak_volume with
  | O => ret transactions
  | S peak_volume' =>
      t <- generate_transaction None ;;
      let t :=
        {| transaction := t;
           peak_hour := true;
           volume_multiplier :=
             dict_get_int hourly_weights current_hour (dec 10 1) |} in
      peak_loop peak_volume' current_hour (transactions ++ [t])
  end.

Definition simulate_peak_hours : M PeakHours :=
  now <- datetime_now ;;
  let current_hour := hour_of now in
  let base_volume := 100%Z in
  peak_volume <-
    py_int (fmul (of_int base_volume)
                 (dict_get_int hourly_weights current_hour (dec 10 1))) ;;
  transactions <- peak_loop (Z.to_nat peak_volume) current_hour [] ;;
  ret {| hour := current_hour;
         expected_volume := peak_volume;
         transactions := transactions;
         peak_factor := dict_get_int hourly_weights current_hour (dec 10 1) |}.

End Peak.

(* ================================================================= *)
(** ** The endpoints ([main.py]) *)

Module Api.
Import Scorer.

(** The request body of [/analyze]: the pydantic model [Transaction], whose
    five fields are all required. *)
Record TransactionModel : Type := mkTransactionModel {
  amount : float;
  merchant : string;
  location : string;
  time_of_day : string;
  card_type : string
}.

(** [transaction.dict()]. *)
Definition dict_of (t : TransactionModel) : Scorer.Transaction :=
  {| Scorer.amount := Some (amount t);
     Scorer.merchant := Some (merchant t);
     Scorer.location := Some (location t);
     Scorer.time_of_day := Some (time_of_day t);
     Scorer.card_type := Some (card_type t) |}.

Record AnalyzeResponse : Type := mkAnalyzeResponse {
  status : string;
  transaction : Scorer.Transaction;
  analysis : Prediction;
  recommendation : string;
  timestamp : Z
}.

(** The body of [analyze_transaction], on the shared [fraud_detector].
    [predict] raises nothing, so the [except] branch is not taken; the
    timestamp is kept as the clock reading, not formatted. *)
Definition analyze_transaction {case_map : CaseMap}
    (fraud_detector : Detector) (transaction : TransactionModel)
  : M (Detector * AnalyzeResponse) :=
  let '(fraud_detector, result) :=
    predict fraud_detector (dict_of transaction) in
  let recommendation :=
    if (prediction result =? 1)%Z then "BLOCK - High fraud risk detected"
    else if (is_anomaly result =? 1)%Z then
      "REVIEW - Transaction shows anomalous patterns"
    else "APPROVE - Transaction appears normal" in
  now <- datetime_now ;;
  ret (fraud_detector,
       {| status := "success";
          transaction := dict_of transaction;
          analysis := result;
          recommendation := recommendation;
          timestamp := now |}).

(** The message of one turn of the loop of [websocket_endpoint]. *)
Record Message : Type := mkMessage {
  msg_transaction : Scorer.Transaction;
  msg_analysis : Prediction;
  msg_recommendation : string;
  alert_level : string;
  msg_timestamp : Z
}.

(** One turn of the loop of [websocket_endpoint]: the delay it sleeps for,
    and the message it broadcasts.  Sleeping, serialising and sending are
    left out. *)
Definition websocket_turn {case_map : CaseMap} (fraud_detector : Detector)
  : M (Detector * (float * Message)) :=
  delay <- uniform (of_int 1) (of_int 3) ;;
  a <- uniform (of_int 5) (of_int 3000) ;;
  m <- choice ["grocery"; "gas"; "restaurant"; "online"; "atm"] ;;
  l <- choice ["NY"; "CA"; "TX"; "FL"; "IL"] ;;
  t <- choice ["morning"; "afternoon"; "evening"; "night"] ;;
  c <- choice ["debit"; "credit"; "prepaid"] ;;
  let sample_txn :=
    {| Scorer.amount := Some (py_round a 2);
       Scorer.merchant := Some m;
       Scorer.location := Some l;
       Scorer.time_of_day := Some t;
       Scorer.card_type := Some c |} in
  let '(fraud_detector, analysis) := predict fraud_detector sample_txn in
  let '(recommendation, alert_level) :=
    if (prediction analysis =? 1)%Z then ("BLOCK", "high")
    else if (is_anomaly analysis =? 1)%Z then ("REVIEW", "medium")
    else ("APPROVE", "low") in
  now <- datetime_now ;;
  ret (fraud_detector,
       (delay,
        {| msg_transaction := sample_txn;
           msg_analysis := analysis;
           msg_recommendation := recommendation;
           alert_level := alert_level;
           msg_timestamp := now |})).

(** The reply of [/stats]: [get_model_stats] regroups what [get_stats]
    reports. *)
Record ModelStats : Type := mkModelStats {
  metrics_accuracy : float;
  metrics_precision : float;
  metrics_recall : float;
  stats_total : Z;
  stats_fraud : Z;
  stats_normal : Z;
  stats_fraud_rate : float;
  model_status : string;
  detection_method : string
}.

Definition get_model_stats (fraud_detector : Detector) : M ModelStats :=
  stats <- get_stats fraud_detector ;;
  ret {| metrics_accuracy := accuracy stats;
         metrics_precision := precision stats;
         metrics_recall := recall stats;
         stats_total := stats_total_transactions stats;
         stats_fraud := stats_fraud_detected stats;
         stats_normal := stats_normal_transactions stats;
         stats_fraud_rate := fraud_rate stats;
         model_status := "active";
         detection_method := "Rule-based Analysis" |}.

End Api.

(* ================================================================= *)
(** ** Merchant statistics ([data_generator.py], [get_merchant_statistics]) *)

Module Statistics.

Record MerchantStatistics : Type := mkMerchantStatistics {
  merchant_types : list string;
  amount_ranges : dict string (Z * Z);
  risk_levels : dict string string
}.

Definition get_merchant_statistics : MerchantStatistics :=
  {| merchant_types := Generator.merchant_types;
     amount_ranges := Generator.merchant_amount_ranges;
     risk_levels :=
       [ ("grocery", "low"); ("gas", "low"); ("restaurant", "low");
         ("pharmacy", "low"); ("entertainment", "medium");
         ("online", "medium"); ("travel", "medium"); ("atm", "high");
         ("unknown", "high") ] |}.

End Statistics.

(* ================================================================= *)
(** ** The connections of the live stream ([main.py],
       class [ConnectionManager]) *)

Module Connections.

(** A websocket is told from another by identity only. *)
Definition WebSocket : Type := Z.

Record ConnectionManager : Type := mkConnectionManager {
  active_connections : list WebSocket
}.

(** [ConnectionManager()]. *)
Definition init : ConnectionManager := mkConnectionManager [].

(** [websocket in connections]. *)
Definition member (websocket : WebSocket) (connections : list WebSocket)
  : bool :=
  existsb (Z.eqb websocket) connections.

(** [connections.remove(websocket)] for a member of the list: the first
    occurrence goes. *)
Fixpoint remove (websocket : WebSocket) (connections : list WebSocket)
  : list WebSocket :=
  match connections with
  | [] => []
  | c :: connections' =>
      if (websocket =? c)%Z then connections'
      else c :: remove websocket connections'
  end.



(** The first loop of [broadcast]: [send_text c] tells whether sending
    to [c] returns ([true]) or raises ([false]). *)
Fixpoint send_all (send_text : WebSocket -> bool)
                  (connections disconnected : list WebSocket)
  : list WebSocket :=
  match connections with
  | [] => disconnected
  | connection :: connections' =>
      if send_text connection
      then send_all send_text connections' disconnected
      else send_all send_text connections' (disconnected ++ [connection])
  end.

(** The second loop of [broadcast]. *)
Fixpoint remove_all (disconnected : list WebSocket) (self : ConnectionManager)
  : ConnectionManager :=
  match disconnected with
  | [] => self
  | conn :: disconnected' =>
      remove_all disconnected'
        (if member conn (active_connections self)
         then mkConnectionManager (remove conn (active_connections self))
         else self)
  end.

(** One call of [broadcast], run to its end with no other coroutine
    touching the list at its [await]s. *)
Definition broadcast (send_text : WebSocket -> bool) (self : ConnectionManager)
  : ConnectionManager :=
  let disconnected := send_all send_text (active_connections self) [] in
  remove_all disconnected self.

End Connections.

(* ================================================================= *)
(** ** Facts about the arithmetic *)

Module PyFloatFacts.
Local Open Scope Z_scope.

Lemma scale_pos : 0 < scale.
Proof. reflexivity. Qed.

Lemma rne_floor n d : 0 < d -> n / d <= rne n d <= n / d + 1.
Proof.
  intros Hd. unfold rne.
  destruct (2 * (n mod d) ?= d); [destruct (Z.even (n / d))| |]; lia.
Qed.

(** Rounding to the nearest integer is monotone. *)
Lemma rne_mono n1 n2 d : 0 < d -> n1 <= n2 -> rne n1 d <= rne n2 d.
Proof.
  intros Hd Hle.
  pose proof (Z.div_le_mono n1 n2 d Hd Hle) as Hk.
  destruct (Z.eq_dec (n1 / d) (n2 / d)) as [E | NE].
  - pose proof (Z.div_mod n1 d ltac:(lia)) as D1.
    pose proof (Z.div_mod n2 d ltac:(lia)) as D2.
    assert (Hr : n1 mod d <= n2 mod d) by (rewrite E in D1; lia).
    unfold rne. rewrite E.
    destruct (Z.compare_spec (2 * (n1 mod d)) d);
      destruct (Z.compare_spec (2 * (n2 mod d)) d);
      destruct (Z.even (n2 / d)); lia.
  - pose proof (rne_floor n1 d Hd). pose proof (rne_floor n2 d Hd). lia.
Qed.

Lemma rne_exact k d : 0 < d -> rne (k * d) d = k.
Proof.
  intros Hd. unfold rne.
  rewrite Z.mod_mul, Z.div_mul by lia.
  replace (2 * 0) with 0 by lia.
  destruct (Z.compare_spec 0 d); lia.
Qed.

Lemma grid_pos q : 0 < grid q.
Proof. unfold grid. apply Z.pow_pos_nonneg; lia. Qed.

Lemma nearest_zero d : 0 < d -> nearest 0 d = 0.
Proof.
  intros Hd. unfold nearest. cbn [Z.abs]. rewrite Z.div_0_l by lia.
  change (grid 0) with 1. rewrite Z.mul_1_r, Z.mul_1_l.
  exact (rne_exact 0 d Hd).
Qed.

(** Rounding to the format is monotone on the non-negative rationals. *)
Lemma nearest_mono n1 n2 d :
  0 < d -> 0 <= n1 -> n1 <= n2 -> nearest n1 d <= nearest n2 d.
Proof.
  intros Hd H0 Hle. unfold nearest.
  rewrite !Z.abs_eq by lia.
  set (q1 := n1 / d). set (q2 := n2 / d).
  assert (Hq : q1 <= q2) by (apply Z.div_le_mono; lia).
  assert (Hq1 : 0 <= q1) by (apply Z.div_pos; lia).
  pose proof (Z.log2_le_mono q1 q2 Hq) as Hl.
  unfold grid.
  set (e1 := Z.max 0 (Z.log2 q1 - 52)). set (e2 := Z.max 0 (Z.log2 q2 - 52)).
  assert (He : e1 <= e2) by lia.
  assert (Hg1 : 0 < 2 ^ e1) by (apply Z.pow_pos_nonneg; lia).
  assert (Hg2 : 0 < 2 ^ e2) by (apply Z.pow_pos_nonneg; lia).
  destruct (Z.eq_dec e1 e2) as [E | NE].
  - rewrite E. apply Z.mul_le_mono_nonneg_l; [lia|].
    apply rne_mono; nia.
  - assert (He2 : e2 = Z.log2 q2 - 52 /\ 0 < e2) by lia.
    destruct He2 as [He2 He2'].
    (* the smaller one rounds to at most [2^(e1+53)] *)
    assert (U1 : rne n1 (d * 2 ^ e1) <= 2 ^ 53).
    { pose proof (rne_floor n1 (d * 2 ^ e1) ltac:(nia)) as [_ F].
      assert (n1 / (d * 2 ^ e1) < 2 ^ 53); [|lia].
      apply Z.div_lt_upper_bound; [nia|].
      assert (Hq1' : q1 < 2 ^ (e1 + 53)).
      { destruct (Z.eq_dec q1 0) as [Z0 | NZ].
        - rewrite Z0. apply Z.pow_pos_nonneg; lia.
        - pose proof (Z.log2_spec q1 ltac:(lia)) as [_ L].
          eapply Z.lt_le_trans; [exact L|].
          apply Z.pow_le_mono_r; lia. }
      rewrite Z.pow_add_r in Hq1' by lia.
      pose proof (Z.div_mod n1 d ltac:(lia)) as D.
      pose proof (Z.mod_pos_bound n1 d Hd) as B.
      fold q1 in D. nia. }
    (* the larger one rounds to at least [2^(e2+52)] *)
    assert (L2 : 2 ^ 52 <= rne n2 (d * 2 ^ e2)).
    { pose proof (rne_floor n2 (d * 2 ^ e2) ltac:(nia)) as [F _].
      assert (2 ^ 52 <= n2 / (d * 2 ^ e2)); [|lia].
      apply Z.div_le_lower_bound; [nia|].
      assert (Hq2 : 0 < q2) by
        (destruct (Z.eq_dec q2 0) as [Z0|]; [rewrite Z0 in He2; cbn in He2; lia | lia]).
      pose proof (Z.log2_spec q2 Hq2) as [L _].
      replace (Z.log2 q2) with (e2 + 52) in L by lia.
      rewrite Z.pow_add_r in L by lia.
      pose proof (Z.div_mod n2 d ltac:(lia)) as D.
      pose proof (Z.mod_pos_bound n2 d Hd) as B.
      fold q2 in D. nia. }
    assert (P : 2 ^ e1 * 2 ^ 53 <= 2 ^ e2 * 2 ^ 52).
    { rewrite <- !Z.pow_add_r by lia. apply Z.pow_le_mono_r; lia. }
    nia.
Qed.

(** The shift-based roundings are the roundings. *)
Lemma rne_sh_spec n d k : 0 < d -> 0 <= k -> rne_sh n d k = rne n (d * 2 ^ k).
Proof.
  intros Hd Hk.
  assert (P : 0 < 2 ^ k) by (apply Z.pow_pos_nonneg; lia).
  unfold rne_sh, rne.
  rewrite Z.shiftr_div_pow2, !Z.shiftl_mul_pow2, Z.land_ones by lia.
  rewrite (Z.mul_comm d (2 ^ k)).
  rewrite <- (Z.div_div n (2 ^ k) d) by lia.
  rewrite (Z.rem_mul_r n (2 ^ k) d) by lia.
  replace (n / 2 ^ k mod d * 2 ^ k + n mod 2 ^ k)
    with (n mod 2 ^ k + 2 ^ k * (n / 2 ^ k mod d)) by lia.
  reflexivity.
Qed.

Lemma rnd_spec n d k : 0 < d -> 0 <= k -> rnd n d k = nearest n (d * 2 ^ k).
Proof.
  intros Hd Hk.
  assert (P : 0 < 2 ^ k) by (apply Z.pow_pos_nonneg; lia).
  unfold rnd, nearest, grid.
  rewrite Z.shiftr_div_pow2 by lia.
  rewrite (Z.div_div (Z.abs n) (2 ^ k) d) by lia.
  rewrite (Z.mul_comm (2 ^ k) d).
  set (e := Z.max 0 (Z.log2 (Z.abs n / (d * 2 ^ k)) - 52)).
  rewrite Z.shiftl_mul_pow2 by lia.
  rewrite rne_sh_spec by lia.
  rewrite Z.pow_add_r by lia.
  rewrite Z.mul_assoc. apply Z.mul_comm.
Qed.

Lemma rnd_zero d k : 0 < d -> 0 <= k -> rnd 0 d k = 0.
Proof.
  intros Hd Hk. rewrite rnd_spec by lia. apply nearest_zero.
  assert (0 < 2 ^ k) by (apply Z.pow_pos_nonneg; lia). nia.
Qed.

Lemma rnd_mono n1 n2 d k :
  0 < d -> 0 <= k -> 0 <= n1 -> n1 <= n2 -> rnd n1 d k <= rnd n2 d k.
Proof.
  intros Hd Hk H0 Hle. rewrite !rnd_spec by lia. apply nearest_mono; [|lia..].
  assert (0 < 2 ^ k) by (apply Z.pow_pos_nonneg; lia). nia.
Qed.

Lemma rnd_nonneg n d k : 0 < d -> 0 <= k -> 0 <= n -> 0 <= rnd n d k.
Proof.
  intros Hd Hk Hn. rewrite <- (rnd_zero d k Hd Hk). apply rnd_mono; lia.
Qed.

Lemma rne_sh_scale n : rne_sh n 1 scale_bits = rne n scale.
Proof. rewrite rne_sh_spec by (unfold scale_bits; lia). reflexivity. Qed.

Lemma rne_sh_mono n1 n2 :
  n1 <= n2 -> rne_sh n1 1 scale_bits <= rne_sh n2 1 scale_bits.
Proof.
  intros H. rewrite !rne_sh_scale. apply rne_mono; [reflexivity | exact H].
Qed.

Lemma rne_sh_zero : rne_sh 0 1 scale_bits = 0.
Proof. rewrite rne_sh_scale. exact (rne_exact 0 scale eq_refl). Qed.

Lemma pack_finite r : 0 <= r -> r < overflow -> pack r = Finite r.
Proof.
  intros H0 H1. unfold pack. rewrite Z.abs_eq by lia.
  destruct (Z.leb_spec overflow r); [lia | reflexivity].
Qed.

Lemma pack_cases r : 0 <= r -> pack r = Finite r \/ pack r = Infinity false.
Proof.
  intros H0. unfold pack. rewrite Z.abs_eq by lia.
  destruct (Z.leb_spec overflow r); [right | now left].
  destruct (Z.ltb_spec r 0); [lia | reflexivity].
Qed.

(** *** Interval evaluation

    [inside (lo, hi) x]: [x] is finite and its stored integer lies between
    [lo] and [hi].  Each operation maps intervals of non-negative floats to
    an interval, computed from the end points. *)

Definition ival : Type := (Z * Z)%type.

Definition inside (i : ival) (x : float) : Prop :=
  exists m, x = Finite m /\ fst i <= m <= snd i.

Definition checked (ok : bool) (i : ival) : option ival :=
  if ok then Some i else None.

Definition ival_const (c : float) : option ival :=
  match c with
  | Finite v => Some (v, v)
  | _ => None
  end.

Definition ival_add (i j : ival) : option ival :=
  let lo := fst i + fst j in
  let hi := rnd (snd i + snd j) 1 0 in
  checked ((0 <=? lo) && (hi <? overflow)) (rnd lo 1 0, hi).

Definition ival_sub (i j : ival) : option ival :=
  let lo := fst i - snd j in
  let hi := rnd (snd i - fst j) 1 0 in
  checked ((0 <=? lo) && (hi <? overflow)) (rnd lo 1 0, hi).

Definition ival_mul (i j : ival) : option ival :=
  let hi := rnd (snd i * snd j) 1 scale_bits in
  checked ((0 <=? fst i) && (0 <=? fst j) && (hi <? overflow))
          (rnd (fst i * fst j) 1 scale_bits, hi).

Definition round_to (ndigits : nat) (a : Z) : Z :=
  let p := 10 ^ Z.of_nat ndigits in
  rnd (rne_sh (a * p) 1 scale_bits * scale) p 0.

Definition ival_round (ndigits : nat) (i : ival) : option ival :=
  let hi := round_to ndigits (snd i) in
  checked ((0 <=? fst i) && (ndigits <=? NDIGITS_MAX)%nat && (hi <? overflow))
          (round_to ndigits (fst i), hi).

(** The smallest interval holding every float of a list. *)
Fixpoint ival_hull (l : list float) : option ival :=
  match l with
  | [] => None
  | [Finite v] => Some (v, v)
  | Finite v :: l' =>
      match ival_hull l' with
      | Some (lo, hi) => Some (Z.min v lo, Z.max v hi)
      | None => None
      end
  | _ => None
  end.

(** [lo <= x <= hi] for every [x] of the interval. *)
Definition ival_within (i : ival) (lo hi : float) : bool :=
  match lo, hi with
  | Finite l, Finite h => (l <=? fst i) && (snd i <=? h)
  | _, _ => false
  end.

Lemma checked_Some ok i k : checked ok i = Some k -> ok = true /\ k = i.
Proof. unfold checked. destruct ok; [intros [= <-]; auto | discriminate]. Qed.

Lemma inside_const c i : ival_const c = Some i -> inside i c.
Proof.
  destruct c as [v | |]; cbn; try discriminate.
  intros [= <-]. exists v. cbn. split; [reflexivity | lia].
Qed.

Lemma inside_weaken i j x :
  inside i x -> fst j <= fst i -> snd i <= snd j -> inside j x.
Proof. intros (m & -> & H) Hl Hh. exists m. split; [reflexivity | lia]. Qed.

Lemma inside_add i j k x y :
  inside i x -> inside j y -> ival_add i j = Some k -> inside k (fadd x y).
Proof.
  intros (a & -> & Ha) (b & -> & Hb) E.
  apply checked_Some in E as [C ->].
  apply andb_prop in C as [C1 C2].
  apply Z.leb_le in C1. apply Z.ltb_lt in C2.
  assert (L : rnd (fst i + fst j) 1 0 <= rnd (a + b) 1 0)
    by (apply rnd_mono; lia).
  assert (U : rnd (a + b) 1 0 <= rnd (snd i + snd j) 1 0)
    by (apply rnd_mono; lia).
  pose proof (rnd_nonneg (fst i + fst j) 1 0 ltac:(lia) ltac:(lia) C1) as N.
  exists (rnd (a + b) 1 0). cbn [fadd fst snd]. split; [|lia].
  apply pack_finite; lia.
Qed.

Lemma inside_sub i j k x y :
  inside i x -> inside j y -> ival_sub i j = Some k -> inside k (fsub x y).
Proof.
  intros (a & -> & Ha) (b & -> & Hb) E.
  apply checked_Some in E as [C ->].
  apply andb_prop in C as [C1 C2].
  apply Z.leb_le in C1. apply Z.ltb_lt in C2.
  assert (L : rnd (fst i - snd j) 1 0 <= rnd (a + - b) 1 0)
    by (apply rnd_mono; lia).
  assert (U : rnd (a + - b) 1 0 <= rnd (snd i - fst j) 1 0)
    by (apply rnd_mono; lia).
  pose proof (rnd_nonneg (fst i - snd j) 1 0 ltac:(lia) ltac:(lia) C1) as N.
  exists (rnd (a + - b) 1 0). cbn [fsub fneg fadd fst snd]. split; [|lia].
  apply pack_finite; lia.
Qed.

Lemma inside_mul i j k x y :
  inside i x -> inside j y -> ival_mul i j = Some k -> inside k (fmul x y).
Proof.
  intros (a & -> & Ha) (b & -> & Hb) E.
  apply checked_Some in E as [C ->].
  apply andb_prop in C as [C C3]. apply andb_prop in C as [C1 C2].
  apply Z.leb_le in C1. apply Z.leb_le in C2. apply Z.ltb_lt in C3.
  assert (S : 0 <= scale_bits) by (unfold scale_bits; lia).
  assert (L : rnd (fst i * fst j) 1 scale_bits <= rnd (a * b) 1 scale_bits)
    by (apply rnd_mono; nia).
  assert (U : rnd (a * b) 1 scale_bits <= rnd (snd i * snd j) 1 scale_bits)
    by (apply rnd_mono; nia).
  pose proof (rnd_nonneg (fst i * fst j) 1 scale_bits ltac:(lia) S ltac:(nia))
    as N.
  exists (rnd (a * b) 1 scale_bits). cbn [fmul fst snd]. split; [|lia].
  apply pack_finite; lia.
Qed.

Lemma round_to_mono ndigits a b :
  0 <= a -> a <= b -> round_to ndigits a <= round_to ndigits b.
Proof.
  intros H0 H. unfold round_to.
  pose proof scale_pos as S.
  assert (P : 0 < 10 ^ Z.of_nat ndigits) by (apply Z.pow_pos_nonneg; lia).
  assert (R0 : 0 <= rne_sh (a * 10 ^ Z.of_nat ndigits) 1 scale_bits).
  { rewrite <- rne_sh_zero. apply rne_sh_mono; nia. }
  assert (R : rne_sh (a * 10 ^ Z.of_nat ndigits) 1 scale_bits
              <= rne_sh (b * 10 ^ Z.of_nat ndigits) 1 scale_bits)
    by (apply rne_sh_mono; nia).
  apply rnd_mono; nia.
Qed.

Lemma round_to_nonneg ndigits a : 0 <= a -> 0 <= round_to ndigits a.
Proof.
  intros H. pose proof scale_pos as S.
  assert (P : 0 < 10 ^ Z.of_nat ndigits) by (apply Z.pow_pos_nonneg; lia).
  unfold round_to. apply rnd_nonneg; [exact P | lia |].
  assert (R0 : 0 <= rne_sh (a * 10 ^ Z.of_nat ndigits) 1 scale_bits).
  { rewrite <- rne_sh_zero. apply rne_sh_mono; nia. }
  nia.
Qed.

Lemma py_round_finite a ndigits :
  (ndigits <= NDIGITS_MAX)%nat ->
  py_round (Finite a) ndigits = pack (round_to ndigits a).
Proof.
  intros H. unfold py_round, round_to.
  destruct (Nat.ltb_spec NDIGITS_MAX ndigits) as [L | _]; [lia | reflexivity].
Qed.

Lemma inside_round ndigits i k x :
  inside i x -> ival_round ndigits i = Some k -> inside k (py_round x ndigits).
Proof.
  intros (a & -> & Ha) E.
  apply checked_Some in E as [C ->].
  apply andb_prop in C as [C C3]. apply andb_prop in C as [C1 C2].
  apply Z.leb_le in C1. apply Nat.leb_le in C2. apply Z.ltb_lt in C3.
  rewrite py_round_finite by exact C2.
  pose proof (round_to_mono ndigits (fst i) a C1 ltac:(lia)) as L.
  pose proof (round_to_mono ndigits a (snd i) ltac:(lia) ltac:(lia)) as U.
  pose proof (round_to_nonneg ndigits (fst i) C1) as N.
  exists (round_to ndigits a). cbn [fst snd]. split; [|lia].
  apply pack_finite; lia.
Qed.

(** [min(c, x)] and [max(c, x)] against a finite constant. *)
Lemma inside_min i c v x :
  inside i x -> c = Finite v ->
  inside (Z.min v (fst i), Z.min v (snd i)) (py_min c x).
Proof.
  intros (a & -> & Ha) ->. unfold py_min, inside. cbn [flt fst snd].
  destruct (Z.ltb_spec a v); eexists; (split; [reflexivity | lia]).
Qed.

Lemma inside_min_r i c v x :
  inside i x -> c = Finite v ->
  inside (Z.min (fst i) v, Z.min (snd i) v) (py_min x c).
Proof.
  intros (a & -> & Ha) ->. unfold py_min, inside. cbn [flt fst snd].
  destruct (Z.ltb_spec v a); eexists; (split; [reflexivity | lia]).
Qed.

Lemma inside_max i c v x :
  inside i x -> c = Finite v ->
  inside (Z.max v (fst i), Z.max v (snd i)) (py_max c x).
Proof.
  intros (a & -> & Ha) ->. unfold py_max, fgt, inside. cbn [flt fst snd].
  destruct (Z.ltb_spec v a); eexists; (split; [reflexivity | lia]).
Qed.

Lemma inside_hull l i x : ival_hull l = Some i -> In x l -> inside i x.
Proof.
  revert i. induction l as [| y l IH]; intros i E Hin; [destruct Hin|].
  destruct y as [v | |]; try discriminate E.
  destruct l as [| z l'].
  - cbn in E. injection E as <-. destruct Hin as [<- | []].
    exists v. cbn. split; [reflexivity | lia].
  - cbn [ival_hull] in E, IH.
    destruct (match z with Finite _ => _ | _ => _ end) as [[lo hi] |] eqn:E';
      [| discriminate E].
    injection E as <-.
    destruct Hin as [<- | Hin].
    + exists v. cbn. split; [reflexivity | lia].
    + apply (inside_weaken (lo, hi)); [apply IH; [reflexivity | exact Hin] | cbn; lia ..].
Qed.

Lemma inside_within i lo hi x :
  inside i x -> ival_within i lo hi = true ->
  fle lo x = true /\ fle x hi = true.
Proof.
  intros (a & -> & Ha) W.
  destruct lo as [l | |], hi as [h | |]; try discriminate W.
  cbn in W. apply andb_prop in W as [W1 W2].
  apply Z.leb_le in W1. apply Z.leb_le in W2.
  unfold fle. cbn [flt feq].
  split.
  - destruct (Z.ltb_spec l a); [reflexivity|].
    cbn. apply Z.eqb_eq. lia.
  - destruct (Z.ltb_spec a h); [reflexivity|].
    cbn. apply Z.eqb_eq. lia.
Qed.

(** [lo <= x] for every [x] of the interval. *)
Definition ival_ge (i : ival) (lo : float) : bool :=
  match lo with
  | Finite l => l <=? fst i
  | _ => false
  end.

Lemma inside_ge i lo x : inside i x -> ival_ge i lo = true -> fle lo x = true.
Proof.
  intros (a & -> & Ha) W.
  destruct lo as [l | |]; try discriminate W.
  cbn in W. apply Z.leb_le in W.
  unfold fle. cbn [flt feq].
  destruct (Z.ltb_spec l a); [reflexivity|].
  cbn. apply Z.eqb_eq. lia.
Qed.

Lemma inside_max_r i c v x :
  inside i x -> c = Finite v ->
  inside (Z.max (fst i) v, Z.max (snd i) v) (py_max x c).
Proof.
  intros (a & -> & Ha) ->. unfold py_max, fgt, inside. cbn [flt fst snd].
  destruct (Z.ltb_spec a v); eexists; (split; [reflexivity | lia]).
Qed.

(** From here on the arithmetic is evaluated, never unfolded. *)
(** A quotient that is exactly one is not rounded. *)
Lemma rnd_unit d : 0 < d -> rnd (d * scale) d 0 = scale.
Proof.
  intros Hd. rewrite rnd_spec by lia.
  change (2 ^ 0) with 1. rewrite Z.mul_1_r.
  unfold nearest.
  pose proof scale_pos as Hs.
  rewrite Z.abs_eq by nia.
  rewrite (Z.mul_comm d scale), Z.div_mul by lia.
  assert (G : grid scale = 2 ^ 1022) by (vm_compute; reflexivity).
  rewrite G.
  assert (S : scale = 2 ^ 52 * 2 ^ 1022) by (vm_compute; reflexivity).
  replace (scale * d) with (2 ^ 52 * (d * 2 ^ 1022)) by (rewrite S; ring).
  rewrite rne_exact by (assert (0 < 2 ^ 1022) by reflexivity; nia).
  rewrite S. ring.
Qed.

#[global] Opaque rnd rne rne_sh nearest pack.

End PyFloatFacts.

(* ================================================================= *)
(** ** The scorer: properties *)

Module ScorerFacts.
Import Scorer PyFloatFacts.

(** Comparison with a float that is not [NaN] decides equality. *)
Lemma feq_eq x y : feq x y = true -> x = y.
Proof.
  destruct x as [a | s |], y as [b | s' |]; cbn; try discriminate.
  - intros H. apply Z.eqb_eq in H. now subst.
  - intros H. apply Bool.eqb_prop in H. now subst.
Qed.

Lemma dict_get_In {V : Type} (d : dict string V) (k : string) (default : V) :
  In (dict_get d k default) (default :: map snd d).
Proof.
  unfold dict_get. induction d as [| [k' v] d IH]; cbn; [now left|].
  destruct (k =? k')%string; [right; now left|].
  destruct IH as [IH | IH]; [now left | right; now right].
Qed.

(** Solves [inside ?i e] by evaluating [e] on intervals: the end points are
    computed, the side conditions decided by evaluation. *)
Ltac ival_eval := vm_compute; reflexivity.

Ltac ival :=
  lazymatch goal with
  | |- inside _ (fadd _ _) => eapply inside_add; [ival | ival | ival_eval]
  | |- inside _ (fsub _ _) => eapply inside_sub; [ival | ival | ival_eval]
  | |- inside _ (fmul _ _) => eapply inside_mul; [ival | ival | ival_eval]
  | |- inside _ (py_round _ _) => eapply inside_round; [ival | ival_eval]
  | |- inside _ (py_min (dec _ _) _) => eapply inside_min; [ival | ival_eval]
  | |- inside _ (py_min _ (dec _ _)) => eapply inside_min_r; [ival | ival_eval]
  | |- inside _ (py_max (dec _ _) _) => eapply inside_max; [ival | ival_eval]
  | |- inside _ (py_max _ (dec _ _)) => eapply inside_max_r; [ival | ival_eval]
  | |- inside _ (dec _ _) => eapply inside_const; ival_eval
  | |- inside _ _ =>
      first [ eassumption | eapply inside_const; ival_eval ]
  end.

(** The values the amount tier can leave in the running score. *)
Definition amount_tiers : list float :=
  [ fadd (dec 0 1) (dec 5 1); fadd (dec 0 1) (dec 3 1);
    fadd (dec 0 1) (dec 2 1); dec 0 1 ].

Lemma tier_In (b1 b2 b3 : bool) (a b c d : float) :
  In (if b1 then a else if b2 then b else if b3 then c else d) [a; b; c; d].
Proof. destruct b1, b2, b3; cbn; tauto. Qed.

Lemma amount_risk_In amount : In (amount_risk (dec 0 1) amount) amount_tiers.
Proof. unfold amount_risk, amount_tiers. apply tier_In. Qed.

(** The score as a function of the running score after the amount tier
    and of the four looked-up contributions. *)
Definition score_of (a m l t c : float) : float :=
  py_min (fadd (fadd (fadd (fadd a m) l) t) c) (dec 10 1).

(** Bounds of each contribution and of the score, from the tables. *)
Definition tier_ival : ival :=
  Eval vm_compute in
    match ival_hull amount_tiers with Some i => i | None => (0, 0)%Z end.

Lemma amount_risk_inside amount :
  inside tier_ival (amount_risk (dec 0 1) amount).
Proof.
  eapply inside_hull; [| apply amount_risk_In]. ival_eval.
Qed.

Lemma dict_get_inside d k default i :
  ival_hull (default :: map snd d) = Some i ->
  inside i (dict_get d k default).
Proof. intros H. eapply inside_hull; [exact H | apply dict_get_In]. Qed.

Definition finite_value (x : float) : Z :=
  match x with
  | Finite v => v
  | _ => 0%Z
  end.

(** The interval [[0.4, 1.0]]. *)
Definition score_ival : ival :=
  Eval vm_compute in (finite_value (dec 4 1), finite_value (of_int 1)).

Lemma score_of_inside a m l t c :
  inside tier_ival a ->
  In m (dec 2 1 :: map snd merchant_risk_scores) ->
  In l (dec 2 1 :: map snd location_risk_scores) ->
  In t (dec 2 1 :: map snd time_risk_scores) ->
  In c (dec 2 1 :: map snd card_risk_scores) ->
  inside score_ival (score_of a m l t c).
Proof.
  intros Ha Hm Hl Ht Hc.
  eapply inside_hull in Hm; [| ival_eval].
  eapply inside_hull in Hl; [| ival_eval].
  eapply inside_hull in Ht; [| ival_eval].
  eapply inside_hull in Hc; [| ival_eval].
  eapply inside_weaken; [unfold score_of; ival | ..];
    apply Z.leb_le; ival_eval.
Qed.

Lemma inside_point i c x : inside i x -> ival_within i c c = true -> x = c.
Proof.
  intros (a & -> & Ha) W.
  destruct c as [l | |]; try discriminate W.
  cbn in W. apply andb_prop in W as [W1 W2].
  apply Z.leb_le in W1. apply Z.leb_le in W2.
  f_equal. lia.
Qed.

Lemma inside_finite i x : inside i x -> exists a, x = Finite a.
Proof. intros (a & -> & _). now exists a. Qed.

(** *** Helpers for [predict] *)

Definition is_finite (x : float) : bool :=
  match x with Finite _ => true | _ => false end.

Lemma is_finite_inv x : is_finite x = true -> exists a, x = Finite a.
Proof. destruct x; cbn; try discriminate. intros _. now eexists. Qed.

(** [round(x, ndigits)] is the float nearest to a decimal with [ndigits]
    fractional digits. *)
Lemma py_round_dec a (ndigits : nat) :
  (ndigits <= NDIGITS_MAX)%nat ->
  py_round (Finite a) ndigits =
  dec (rne_sh (a * 10 ^ Z.of_nat ndigits) 1 scale_bits) ndigits.
Proof.
  intros H. unfold py_round, dec, of_frac.
  destruct (Nat.ltb_spec NDIGITS_MAX ndigits) as [L | _]; [lia|].
  rewrite Z2Pos.id by (apply Z.pow_pos_nonneg; lia).
  reflexivity.
Qed.

(** The confidence [predict] derives from a score, before rounding. *)
Definition confidence_of (is_fraud : bool) (risk_score : float) : float :=
  if is_fraud then py_min (dec 9 1) (fadd (dec 5 1) risk_score)
  else py_max (dec 7 1) (fsub (dec 10 1) risk_score).

Lemma confidence_of_true rs :
  confidence_of true rs = py_min (dec 9 1) (fadd (dec 5 1) rs).
Proof. reflexivity. Qed.

Lemma confidence_of_false rs :
  confidence_of false rs = py_max (dec 7 1) (fsub (dec 10 1) rs).
Proof. reflexivity. Qed.

Section Predict.
Context {case_map : CaseMap}.

Definition is_fraud (transaction : Transaction) : bool :=
  fgt (calculate_risk_score transaction) (dec 6 1)
  || detect_anomalies transaction.

Lemma calculate_risk_score_eq transaction :
  calculate_risk_score transaction =
  score_of
    (amount_risk (dec 0 1) (get (amount transaction) (of_int 0)))
    (dict_get merchant_risk_scores
       (lower (get (merchant transaction) EmptyString)) (dec 2 1))
    (dict_get location_risk_scores
       (upper (get (location transaction) EmptyString)) (dec 2 1))
    (dict_get time_risk_scores
       (lower (get (time_of_day transaction) EmptyString)) (dec 2 1))
    (dict_get card_risk_scores
       (lower (get (card_type transaction) EmptyString)) (dec 2 1)).
Proof. reflexivity. Qed.

(** The score of any transaction lies in [[0.4, 1.0]]. *)
Lemma risk_score_inside transaction :
  inside score_ival (calculate_risk_score transaction).
Proof.
  rewrite calculate_risk_score_eq.
  apply score_of_inside.
  - apply amount_risk_inside.
  - exact (dict_get_In _ _ _).
  - exact (dict_get_In _ _ _).
  - exact (dict_get_In _ _ _).
  - exact (dict_get_In _ _ _).
Qed.

Lemma predict_result self transaction :
  snd (predict self transaction) =
  {| prediction := int_of_bool (is_fraud transaction);
     is_anomaly := int_of_bool (detect_anomalies transaction);
     confidence :=
       py_round (confidence_of (is_fraud transaction)
                               (calculate_risk_score transaction)) 3;
     risk_score := py_round (calculate_risk_score transaction) 3 |}.
Proof. reflexivity. Qed.

Lemma prediction_eq self transaction :
  prediction (snd (predict self transaction))
  = int_of_bool (is_fraud transaction).
Proof. reflexivity. Qed.

Lemma confidence_eq self transaction :
  confidence (snd (predict self transaction))
  = py_round (confidence_of (is_fraud transaction)
                            (calculate_risk_score transaction)) 3.
Proof. reflexivity. Qed.

Lemma risk_score_eq self transaction :
  risk_score (snd (predict self transaction))
  = py_round (calculate_risk_score transaction) 3.
Proof. reflexivity. Qed.

Lemma is_fraud_iff transaction :
  is_fraud transaction = true <->
  fgt (calculate_risk_score transaction) (dec 6 1) = true \/
  detect_anomalies transaction = true.
Proof. unfold is_fraud. apply orb_true_iff. Qed.

Lemma predict_self self transaction :
  fst (predict self transaction) =
  if is_fraud transaction then
    mkDetector (total_transactions self + 1) (fraud_detected self + 1)
               (normal_transactions self)
  else
    mkDetector (total_transactions self + 1) (fraud_detected self)
               (normal_transactions self + 1).
Proof. reflexivity. Qed.

End Predict.

(** *** Anomaly rules *)

Lemma append_if_chain (b1 b2 b3 b4 : bool) (s1 s2 s3 s4 : string) :
  (0 <? List.length
          (append_if b4 s4
             (append_if b3 s3 (append_if b2 s2 (append_if b1 s1 [])))))%nat
  = b1 || b2 || b3 || b4.
Proof. destruct b1, b2, b3, b4; reflexivity. Qed.

(** [x % y == 0] for a positive finite [y]: [x] is finite and a multiple
    of [y]. *)
Lemma float_rem_zero x b :
  (0 < b)%Z ->
  feq (float_rem x (Finite b)) (Finite 0) = true <->
  exists k : Z, x = Finite (k * b).
Proof.
  intros Hb. unfold float_rem.
  destruct x as [a | s |]; cbn [fmod].
  - destruct (Z.eqb_spec b 0) as [|_]; [lia|].
    cbn [feq flt].
    destruct (Z.eqb_spec (Z.rem a b) 0) as [R | R].
    + cbn [feq]. rewrite R. split; [intros _ | reflexivity].
      exists (Z.quot a b).
      pose proof (Z.quot_rem' a b). f_equal. lia.
    + assert (NK : ~ exists k : Z, Finite a = Finite (k * b)).
      { intros [k [= ->]]. apply R. apply Z.rem_mul. lia. }
      destruct (Z.ltb_spec b 0) as [|_]; [lia|].
      destruct (Z.ltb_spec (Z.rem a b) 0) as [N | N]; cbn [Bool.eqb].
      * (* the remainder is negative: it is moved up by [b] *)
        cbn [fadd].
        assert (B : (1 <= Z.rem a b + b)%Z).
        { pose proof (Z.rem_bound_abs a b ltac:(lia)). lia. }
        assert (P : (1 <= rnd (Z.rem a b + b) 1 0)%Z).
        { assert (E1 : rnd 1 1 0 = 1%Z) by (vm_compute; reflexivity).
          rewrite <- E1 at 1. apply rnd_mono; lia. }
        destruct (pack_cases (rnd (Z.rem a b + b) 1 0) ltac:(lia)) as [-> | ->];
          cbn [feq].
        -- destruct (Z.eqb_spec (rnd (Z.rem a b + b) 1 0) 0); [lia|].
           split; [discriminate | intros K; destruct (NK K)].
        -- split; [discriminate | intros K; destruct (NK K)].
      * cbn [feq]. destruct (Z.eqb_spec (Z.rem a b) 0); [contradiction|].
        split; [discriminate | intros K; destruct (NK K)].
  - cbn. destruct (b <? 0)%Z; cbn; (split; [discriminate | intros [k [=]]]).
  - cbn. destruct (b <? 0)%Z; cbn; (split; [discriminate | intros [k [=]]]).
Qed.

(** [x] is finite and its value is an integer multiple of [100]. *)
Definition multiple_of_100 (x : float) : Prop :=
  exists k : Z, x = Finite (k * (100 * scale)).

Lemma round_multiple amount :
  feq (float_rem amount (of_int 100)) (of_int 0) = true <->
  multiple_of_100 amount.
Proof.
  assert (E100 : of_int 100 = Finite (100 * scale)) by ival_eval.
  assert (E0 : of_int 0 = Finite 0) by ival_eval.
  rewrite E100, E0. apply float_rem_zero. reflexivity.
Qed.

(** The disjunction of the four rules, as [detect_anomalies] tests them. *)
Definition any_rule (amount : float) (merchant time_of_day : string) : bool :=
  (merchant =? "online") && (time_of_day =? "night")
    && fgt amount (of_int 1000)
  || feq (float_rem amount (of_int 100)) (of_int 0) && fgt amount (of_int 500)
  || (merchant =? "atm") && fgt amount (of_int 800)
  || ((merchant =? "grocery") || ((merchant =? "gas") || false))
     && fgt amount (of_int 300).

Lemma detect_anomalies_eq {case_map : CaseMap} (transaction : Transaction) :
  detect_anomalies transaction =
  any_rule (get (amount transaction) (of_int 0))
           (lower (get (merchant transaction) EmptyString))
           (lower (get (time_of_day transaction) EmptyString)).
Proof. exact (append_if_chain _ _ _ _ _ _ _ _). Qed.

Section Claims.
Context {case_map : CaseMap}.

(** C1.  For every transaction record, whatever its strings and its amount,
    [calculate_risk_score] is the sum of the amount-tier, merchant, location,
    time and card contributions capped at [1.0], and lies in [[0, 1]]. *)
Theorem risk_score_in_unit_interval (transaction : Transaction) :
  calculate_risk_score transaction =
    py_min
      (fadd (fadd (fadd (fadd
         (amount_risk (dec 0 1) (get (amount transaction) (of_int 0)))
         (dict_get merchant_risk_scores
            (lower (get (merchant transaction) EmptyString)) (dec 2 1)))
         (dict_get location_risk_scores
            (upper (get (location transaction) EmptyString)) (dec 2 1)))
         (dict_get time_risk_scores
            (lower (get (time_of_day transaction) EmptyString)) (dec 2 1)))
         (dict_get card_risk_scores
            (lower (get (card_type transaction) EmptyString)) (dec 2 1)))
      (dec 10 1) /\
  fle (of_int 0) (calculate_risk_score transaction) = true /\
  fle (calculate_risk_score transaction) (of_int 1) = true.
Proof.
  split; [reflexivity|].
  apply (inside_within score_ival).
  - apply risk_score_inside.
  - ival_eval.
Qed.

(** C9.  No transaction scores below [0.4]: the merchant, location, time
    and card lookups contribute at least [0.05], [0.15], [0.1] and [0.1],
    whatever the key; the record with no field at all scores exactly
    [1.0]. *)
Theorem risk_score_at_least_0_4 (transaction : Transaction) :
  fle (dec 4 1) (calculate_risk_score transaction) = true /\
  (forall k, fle (dec 5 2) (dict_get merchant_risk_scores k (dec 2 1)) = true) /\
  (forall k, fle (dec 15 2) (dict_get location_risk_scores k (dec 2 1)) = true) /\
  (forall k, fle (dec 1 1) (dict_get time_risk_scores k (dec 2 1)) = true) /\
  (forall k, fle (dec 1 1) (dict_get card_risk_scores k (dec 2 1)) = true) /\
  calculate_risk_score (mkTransaction None None None None None) = of_int 1.
Proof.
  split.
  { eapply inside_ge; [apply risk_score_inside | ival_eval]. }
  split; [| split; [| split; [| split]]]; try intros k.
  1-4: eapply inside_ge; [eapply dict_get_inside; ival_eval | ival_eval].
  unfold calculate_risk_score. cbn [amount merchant location time_of_day card_type get].
  rewrite lower_empty, upper_empty. ival_eval.
Qed.

(** C4.  [predict] answers [prediction = 1] exactly when the score exceeds
    [0.6] or an anomaly rule fires; the confidence is [min(0.9, 0.5 + score)]
    in that case and [max(0.7, 1.0 - score)] otherwise; score and confidence
    are returned rounded to three decimals. *)
Theorem predict_decision (self : Detector) (transaction : Transaction) :
  let r := snd (predict self transaction) in
  let score := calculate_risk_score transaction in
  (prediction r = 1%Z <->
     fgt score (dec 6 1) = true \/ detect_anomalies transaction = true) /\
  (prediction r = 1%Z \/ prediction r = 0%Z) /\
  (prediction r = 1%Z ->
     confidence r = py_round (py_min (dec 9 1) (fadd (dec 5 1) score)) 3) /\
  (prediction r = 0%Z ->
     confidence r = py_round (py_max (dec 7 1) (fsub (dec 10 1) score)) 3) /\
  risk_score r = py_round score 3 /\
  (exists n : Z, risk_score r = dec n 3) /\
  (exists n : Z, confidence r = dec n 3).
Proof.
  intros r score.
  pose proof (prediction_eq self transaction) as EP.
  pose proof (confidence_eq self transaction) as EC.
  pose proof (risk_score_eq self transaction) as ER.
  pose proof (risk_score_inside transaction) as Hs.
  pose proof (is_fraud_iff transaction) as F.
  change (snd (predict self transaction)) with r in EP, EC, ER.
  change (calculate_risk_score transaction) with score in EC, ER, Hs, F.
  clearbody r score.
  rewrite EP, EC, ER. clear EP EC ER.
  split; [| split; [| split; [| split; [| split; [reflexivity | split]]]]].
  - rewrite <- F.
    destruct (is_fraud transaction); cbn [int_of_bool]; split; congruence.
  - destruct (is_fraud transaction); cbn [int_of_bool]; auto.
  - destruct (is_fraud transaction); cbn [int_of_bool];
      [intros _; now rewrite confidence_of_true | discriminate].
  - destruct (is_fraud transaction); cbn [int_of_bool];
      [discriminate | intros _; now rewrite confidence_of_false].
  - destruct (inside_finite _ _ Hs) as [a ->]. eexists.
    apply py_round_dec. unfold NDIGITS_MAX. lia.
  - assert (C : exists i, inside i (confidence_of (is_fraud transaction) score)).
    { destruct (is_fraud transaction);
        [rewrite confidence_of_true | rewrite confidence_of_false];
        eexists; ival. }
    destruct C as [i C]. destruct (inside_finite _ _ C) as [a ->]. eexists.
    apply py_round_dec. unfold NDIGITS_MAX. lia.
Qed.

(** C10.  The confidence [predict] returns is at least [0.7]; when the
    transaction is flagged it is exactly [0.9], because the score is never
    below [0.4]. *)
Theorem confidence_at_least_0_7 (self : Detector) (transaction : Transaction) :
  let r := snd (predict self transaction) in
  fle (dec 7 1) (confidence r) = true /\
  (prediction r = 1%Z -> confidence r = dec 9 1).
Proof.
  intros r.
  pose proof (prediction_eq self transaction) as EP.
  pose proof (confidence_eq self transaction) as EC.
  pose proof (risk_score_inside transaction) as Hs.
  change (snd (predict self transaction)) with r in EP, EC.
  clearbody r.
  rewrite EP, EC. clear EP EC.
  destruct (is_fraud transaction); cbn [int_of_bool].
  - rewrite confidence_of_true.
    assert (E : py_round
                  (py_min (dec 9 1)
                     (fadd (dec 5 1) (calculate_risk_score transaction))) 3
                = dec 9 1).
    { eapply inside_point; [ival | ival_eval]. }
    rewrite E. split; [ival_eval | reflexivity].
  - rewrite confidence_of_false. split; [| discriminate].
    eapply inside_ge; [ival | ival_eval].
Qed.

(** C3.  [detect_anomalies] is true exactly when one of the four rules
    holds: (a) an online purchase at night above [1000]; (b) an amount that
    is an exact multiple of [100] and above [500]; (c) an ATM withdrawal
    above [800]; (d) a grocery or gas purchase above [300]. *)
Theorem detect_anomalies_rules (transaction : Transaction) :
  let amount := get (amount transaction) (of_int 0) in
  let merchant := lower (get (merchant transaction) EmptyString) in
  let time_of_day := lower (get (time_of_day transaction) EmptyString) in
  detect_anomalies transaction = true <->
    (merchant = "online" /\ time_of_day = "night" /\
     fgt amount (of_int 1000) = true) \/
    (multiple_of_100 amount /\ fgt amount (of_int 500) = true) \/
    (merchant = "atm" /\ fgt amount (of_int 800) = true) \/
    ((merchant = "grocery" \/ merchant = "gas") /\
     fgt amount (of_int 300) = true).
Proof.
  intros amount merchant time_of_day.
  pose proof (detect_anomalies_eq transaction) as E.
  pose proof (round_multiple amount) as M.
  change (get (Scorer.amount transaction) (of_int 0)) with amount in E.
  change (lower (get (Scorer.merchant transaction) EmptyString))
    with merchant in E.
  change (lower (get (Scorer.time_of_day transaction) EmptyString))
    with time_of_day in E.
  clearbody amount merchant time_of_day.
  rewrite E. clear E. unfold any_rule.
  revert M.
  generalize (feq (float_rem amount (of_int 100)) (of_int 0)).
  generalize (fgt amount (of_int 1000)), (fgt amount (of_int 500)),
             (fgt amount (of_int 800)), (fgt amount (of_int 300)).
  intros g1000 g500 g800 g300 round M.
  rewrite !orb_true_iff, !andb_true_iff, orb_false_r, orb_true_iff.
  rewrite !String.eqb_eq, M.
  tauto.
Qed.

(** C2.  After [N] calls of [predict] on a fresh scorer,
    [total_transactions] is [N] and [fraud_detected + normal_transactions]
    is [N]; each call adds one to [total_transactions] and one to exactly
    one of the two other counters; no method lowers a counter. *)
Theorem predict_counters_count (transactions : list Transaction) :
  (let s := predict_all init transactions in
   total_transactions s = Z.of_nat (List.length transactions) /\
   (fraud_detected s + normal_transactions s)%Z
   = Z.of_nat (List.length transactions)) /\
  (forall self transaction,
     let s := fst (predict self transaction) in
     total_transactions s = (total_transactions self + 1)%Z /\
     ((fraud_detected s = (fraud_detected self + 1)%Z /\
       normal_transactions s = normal_transactions self) \/
      (fraud_detected s = fraud_detected self /\
       normal_transactions s = (normal_transactions self + 1)%Z))) /\
  (forall self c,
     (total_transactions self <= total_transactions (step self c))%Z /\
     (fraud_detected self <= fraud_detected (step self c))%Z /\
     (normal_transactions self <= normal_transactions (step self c))%Z).
Proof.
  assert (One : forall self transaction,
     let s := fst (predict self transaction) in
     total_transactions s = (total_transactions self + 1)%Z /\
     ((fraud_detected s = (fraud_detected self + 1)%Z /\
       normal_transactions s = normal_transactions self) \/
      (fraud_detected s = fraud_detected self /\
       normal_transactions s = (normal_transactions self + 1)%Z))).
  { intros self transaction s. subst s. rewrite predict_self.
    destruct (is_fraud transaction);
      cbn [total_transactions fraud_detected normal_transactions]; auto. }
  split; [| split; [exact One|]].
  - cbv zeta. unfold predict_all.
    assert (G : forall self,
      let s := fold_left (fun self t => fst (predict self t)) transactions self in
      total_transactions s
      = (total_transactions self + Z.of_nat (List.length transactions))%Z /\
      (fraud_detected s + normal_transactions s)%Z
      = (fraud_detected self + normal_transactions self
         + Z.of_nat (List.length transactions))%Z).
    { induction transactions as [| t ts IH]; intros self; cbn [fold_left List.length].
      - cbv zeta. lia.
      - specialize (IH (fst (predict self t))). cbv zeta in IH |- *.
        destruct IH as [IH1 IH2]. destruct (One self t) as [O1 O2].
        cbv zeta in O1, O2. rewrite IH1, IH2. lia. }
    specialize (G init). cbv zeta in G. cbn in G. exact G.
  - intros self c. destruct c as [t | t | t |]; cbn [step]; try lia.
    destruct (One self t) as [O1 O2]. cbv zeta in O1, O2. lia.
Qed.

End Claims.

End ScorerFacts.

(* ================================================================= *)
(** ** Effects: what a computation returns, whatever the draws *)

Module Effects.
Import PyFloatFacts.

(** The state of [os.urandom], of [numpy.random] and the clock are as
    before. *)
Definition only_mt (w w' : world) : Prop :=
  urandom w' = urandom w /\ numpy w' = numpy w /\ clock w' = clock w.

(** [m] raises nothing, draws from the [random] module only, and its result
    satisfies [P]. *)
Definition returns {A : Type} (m : M A) (P : A -> Prop) : Prop :=
  forall w, exists a w', m w = Ok (a, w') /\ only_mt w w' /\ P a.

Lemma only_mt_refl w : only_mt w w.
Proof. repeat split. Qed.

Lemma only_mt_trans w1 w2 w3 : only_mt w1 w2 -> only_mt w2 w3 -> only_mt w1 w3.
Proof. unfold only_mt. intros (A & B & C) (D & E & F). repeat split; congruence. Qed.

Lemma returns_ret {A : Type} (a : A) (P : A -> Prop) : P a -> returns (ret a) P.
Proof. intros H w. exists a, w. repeat split. exact H. Qed.

Lemma returns_bind {A B : Type} (m : M A) (f : A -> M B)
      (P : A -> Prop) (Q : B -> Prop) :
  returns m P -> (forall a, P a -> returns (f a) Q) -> returns (bind m f) Q.
Proof.
  intros Hm Hf w.
  destruct (Hm w) as (a & w1 & E1 & F1 & Pa).
  destruct (Hf a Pa w1) as (b & w2 & E2 & F2 & Qb).
  exists b, w2. unfold bind. rewrite E1. split; [exact E2|].
  split; [exact (only_mt_trans _ _ _ F1 F2) | exact Qb].
Qed.

Lemma returns_weaken {A : Type} (m : M A) (P Q : A -> Prop) :
  returns m P -> (forall a, P a -> Q a) -> returns m Q.
Proof.
  intros Hm H w. destruct (Hm w) as (a & w1 & E1 & F1 & Pa).
  exists a, w1. auto.
Qed.

Lemma returns_draw_mt : returns draw_mt (fun _ => True).
Proof. intros w. eexists _, _. split; [reflexivity|]. repeat split. Qed.

(** The floats [random.random()] returns: [k / 2^53] for [0 <= k < 2^53]. *)
Definition unit_ival : ival := (0, (2 ^ 53 - 1) * 2 ^ 1021)%Z.

Lemma returns_random : returns random (inside unit_ival).
Proof.
  unfold random. eapply returns_bind; [apply returns_draw_mt|].
  intros r _. apply returns_ret.
  exists ((r mod 2 ^ 53) * 2 ^ 1021)%Z. split; [reflexivity|].
  pose proof (Z.mod_pos_bound r (2 ^ 53) ltac:(reflexivity)) as B.
  unfold unit_ival. cbn [fst snd].
  assert (0 < 2 ^ 1021)%Z by reflexivity. nia.
Qed.

Lemma returns_randbelow n :
  (0 < n)%Z -> returns (randbelow n) (fun r => (0 <= r < n)%Z).
Proof.
  intros Hn. unfold randbelow. eapply returns_bind; [apply returns_draw_mt|].
  intros r _. apply returns_ret. apply Z.mod_pos_bound. exact Hn.
Qed.

Lemma returns_randint a b :
  (a <= b)%Z -> returns (randint a b) (fun r => (a <= r <= b)%Z).
Proof.
  intros H. unfold randint.
  destruct (Z.leb_spec (b - a + 1) 0); [lia|].
  eapply returns_bind; [apply returns_randbelow; lia|].
  intros r Hr. apply returns_ret. cbv beta in Hr |- *. lia.
Qed.

Lemma returns_choice {A : Type} (seq : list A) :
  seq <> [] -> returns (choice seq) (fun x => In x seq).
Proof.
  intros Hne. destruct seq as [| x seq']; [congruence|].
  unfold choice.
  eapply returns_bind; [apply returns_randbelow; cbn [List.length]; lia|].
  intros i Hi. apply returns_ret. apply nth_In. cbv beta in Hi.
  cbn [List.length] in Hi |- *. lia.
Qed.

(** [uniform(a, b)] stays within the interval computed from [a] and [b]. *)
Lemma returns_uniform a b ia ib d p r :
  inside ia a -> inside ib b ->
  ival_sub ib ia = Some d -> ival_mul d unit_ival = Some p ->
  ival_add ia p = Some r ->
  returns (uniform a b) (inside r).
Proof.
  intros Ha Hb Ed Ep Er. unfold uniform.
  eapply returns_bind; [apply returns_random|].
  intros u Hu. apply returns_ret.
  eapply inside_add; [exact Ha | | exact Er].
  eapply inside_mul; [| exact Hu | exact Ep].
  eapply inside_sub; [exact Hb | exact Ha | exact Ed].
Qed.

Lemma bisect_loop_bounds fuel a x lo hi :
  (lo <= hi)%nat ->
  (lo <= bisect_loop fuel a x lo hi <= hi)%nat.
Proof.
  revert lo hi. induction fuel as [| fuel IH]; intros lo hi H; cbn [bisect_loop].
  - lia.
  - destruct (Nat.ltb_spec lo hi) as [L | L]; [| lia].
    pose proof (Nat.div_mod_eq (lo + hi) 2) as D.
    pose proof (Nat.mod_upper_bound (lo + hi) 2 ltac:(lia)) as U.
    destruct (flt x (nth ((lo + hi) / 2) a NaN)).
    + specialize (IH lo ((lo + hi) / 2)%nat ltac:(lia)). lia.
    + specialize (IH ((lo + hi) / 2 + 1)%nat hi ltac:(lia)). lia.
Qed.

(** The loop of [bisect] runs to its end: more fuel changes nothing. *)
Lemma bisect_loop_fuel fuel1 fuel2 a x lo hi :
  (hi - lo <= fuel1)%nat -> (hi - lo <= fuel2)%nat ->
  bisect_loop fuel1 a x lo hi = bisect_loop fuel2 a x lo hi.
Proof.
  revert fuel2 lo hi.
  induction fuel1 as [| fuel1 IH]; intros fuel2 lo hi H1 H2.
  - destruct fuel2 as [| fuel2]; [reflexivity|]. cbn [bisect_loop].
    destruct (Nat.ltb_spec lo hi); [lia | reflexivity].
  - destruct fuel2 as [| fuel2]; cbn [bisect_loop].
    + destruct (Nat.ltb_spec lo hi); [lia | reflexivity].
    + destruct (Nat.ltb_spec lo hi) as [L | L]; [| reflexivity].
      pose proof (Nat.div_mod_eq (lo + hi) 2) as D.
      pose proof (Nat.mod_upper_bound (lo + hi) 2 ltac:(lia)) as U.
      destruct (flt x (nth ((lo + hi) / 2) a NaN)); apply IH; lia.
Qed.

Lemma bisect_loop_enough fuel a x lo hi :
  (hi - lo <= fuel)%nat ->
  bisect_loop fuel a x lo hi = bisect a x lo hi.
Proof. intros H. unfold bisect. apply bisect_loop_fuel; lia. Qed.

(** The checks [choices] makes before it draws. *)
Definition choices_ok {A : Type} (population : list A) (weights : list float)
  : bool :=
  let total := fadd (last (accumulate weights) NaN) (of_int 0) in
  (List.length (accumulate weights) =? List.length population)%nat
  && negb (List.length population =? 0)%nat
  && negb (fle total (of_int 0))
  && match total with Finite _ => true | _ => false end.

Lemma returns_choices {A : Type} (population : list A) (weights : list float) :
  choices_ok population weights = true ->
  returns (choices population weights) (fun x => In x population).
Proof.
  unfold choices_ok, choices. intros H.
  apply andb_prop in H as [H H4]. apply andb_prop in H as [H H3].
  apply andb_prop in H as [H1 H2].
  rewrite H1. cbn [negb].
  destruct population as [| x population']; [discriminate H2|].
  apply negb_true_iff in H3. rewrite H3.
  destruct (fadd (last (accumulate weights) NaN) (of_int 0)) as [t | |];
    try discriminate H4.
  eapply returns_bind; [apply returns_random|].
  intros u _. apply returns_ret. apply nth_In.
  pose proof (bisect_loop_bounds
                (List.length (x :: population') - 1 - 0)
                (accumulate weights) (fmul u (Finite t)) 0
                (List.length (x :: population') - 1) ltac:(lia)) as B.
  unfold bisect. cbn [List.length] in B |- *. lia.
Qed.

Lemma returns_getitem {V : Type} (d : dict string V) (k : string) (v : V) :
  lookup String.eqb d k = Some v -> returns (getitem d k) (eq v).
Proof. intros H. unfold getitem. rewrite H. now apply returns_ret. Qed.

Lemma lookup_In {V : Type} (d : dict string V) (k : string) (v : V) :
  lookup String.eqb d k = Some v -> In (k, v) d.
Proof.
  induction d as [| [k' v'] d IH]; cbn; [discriminate|].
  destruct (String.eqb_spec k k') as [-> | _].
  - intros [= ->]. now left.
  - intros H. right. now apply IH.
Qed.

Lemma In_lookup {V : Type} (d : dict string V) (k : string) :
  In k (map fst d) -> exists v, lookup String.eqb d k = Some v.
Proof.
  induction d as [| [k' v'] d IH]; cbn; [intros []|].
  destruct (String.eqb_spec k k') as [-> | N].
  - intros _. now exists v'.
  - intros [E | H]; [congruence | now apply IH].
Qed.

Lemma lookup_None {V : Type} (d : dict string V) (k : string) :
  ~ In k (map fst d) -> lookup String.eqb d k = None.
Proof.
  induction d as [| [k' v'] d IH]; cbn; [reflexivity|].
  intros H. destruct (String.eqb_spec k k') as [-> | N]; [tauto|].
  apply IH. tauto.
Qed.

End Effects.

(* ================================================================= *)
(** ** The generator: properties *)

Module GeneratorFacts.
Import Generator PyFloatFacts ScorerFacts Effects.

(** An amount of at least one cent that is the float nearest to a decimal
    with two fractional digits. *)
Definition amount_ok (x : float) : Prop :=
  fle (dec 1 2) x = true /\ exists cents : Z, x = dec cents 2.

(** The literal amount range of each archetype. *)
Definition archetype_ranges : dict string (float * float) :=
  [ ("high_amount_unknown_merchant", (of_int 1000, of_int 15000));
    ("multiple_small_amounts", (dec 1 2, of_int 50));
    ("foreign_location", (of_int 100, of_int 3000));
    ("unusual_time", (of_int 200, of_int 5000));
    ("prepaid_card_pattern", (of_int 50, of_int 1000)) ].

(** What holds of a transaction of an archetype with range [[lo, hi]]. *)
Definition fraud_ok (lo hi : float) (t : Transaction) : Prop :=
  user_profile t = "fraudulent" /\
  fle lo (amount t) = true /\ fle (amount t) hi = true /\
  amount_ok (amount t).

Ltac nonempty := first [discriminate | vm_compute; discriminate].

Ltac step_choice :=
  eapply returns_bind; [apply returns_choice; nonempty | intros ? ?].

(** [round(a, 2)] of an amount known within an interval. *)
Lemma rounded_amount_ok i k a :
  inside i a -> ival_round 2 i = Some k -> ival_ge k (dec 1 2) = true ->
  amount_ok (py_round a 2).
Proof.
  intros Ha Ek G.
  pose proof (inside_round 2 i k a Ha Ek) as R.
  split.
  - exact (inside_ge k _ _ R G).
  - destruct (inside_finite _ _ Ha) as [m ->]. eexists.
    apply py_round_dec. unfold NDIGITS_MAX. lia.
Qed.

Lemma rounded_amount i k a lo hi :
  inside i a -> ival_round 2 i = Some k ->
  ival_within k lo hi = true -> ival_ge k (dec 1 2) = true ->
  fle lo (py_round a 2) = true /\ fle (py_round a 2) hi = true /\
  amount_ok (py_round a 2).
Proof.
  intros Ha Ek W G.
  pose proof (inside_round 2 i k a Ha Ek) as R.
  destruct (inside_within k lo hi _ R W) as [L U].
  split; [exact L | split; [exact U|]].
  exact (rounded_amount_ok i k a Ha Ek G).
Qed.

Lemma high_amount_unknown_merchant_ok :
  returns high_amount_unknown_merchant (fraud_ok (of_int 1000) (of_int 15000)).
Proof.
  unfold high_amount_unknown_merchant.
  eapply returns_bind;
    [eapply returns_uniform; [ival | ival | ival_eval ..] | intros a Ha].
  do 2 step_choice.
  apply returns_ret. split; [reflexivity|].
  cbn [amount]. eapply rounded_amount; [exact Ha | ival_eval ..].
Qed.

Lemma multiple_small_amounts_ok :
  returns multiple_small_amounts (fraud_ok (dec 1 2) (of_int 50)).
Proof.
  unfold multiple_small_amounts.
  eapply returns_bind;
    [eapply returns_uniform; [ival | ival | ival_eval ..] | intros a Ha].
  do 3 step_choice.
  apply returns_ret. split; [reflexivity|].
  cbn [amount]. eapply rounded_amount; [exact Ha | ival_eval ..].
Qed.

Lemma foreign_location_ok :
  returns foreign_location (fraud_ok (of_int 100) (of_int 3000)).
Proof.
  unfold foreign_location.
  eapply returns_bind;
    [eapply returns_uniform; [ival | ival | ival_eval ..] | intros a Ha].
  do 3 step_choice.
  apply returns_ret. split; [reflexivity|].
  cbn [amount]. eapply rounded_amount; [exact Ha | ival_eval ..].
Qed.

Lemma unusual_time_ok :
  returns unusual_time (fraud_ok (of_int 200) (of_int 5000)).
Proof.
  unfold unusual_time.
  eapply returns_bind;
    [eapply returns_uniform; [ival | ival | ival_eval ..] | intros a Ha].
  do 3 step_choice.
  apply returns_ret. split; [reflexivity|].
  cbn [amount]. eapply rounded_amount; [exact Ha | ival_eval ..].
Qed.

Lemma prepaid_card_pattern_ok :
  returns prepaid_card_pattern (fraud_ok (of_int 50) (of_int 1000)).
Proof.
  unfold prepaid_card_pattern.
  eapply returns_bind;
    [eapply returns_uniform; [ival | ival | ival_eval ..] | intros a Ha].
  do 3 step_choice.
  apply returns_ret. split; [reflexivity|].
  cbn [amount]. eapply rounded_amount; [exact Ha | ival_eval ..].
Qed.

(** Each archetype keeps to its range. *)
Lemma Some_pair_inv {A B : Type} (a a' : A) (b b' : B) :
  Some (a, b) = Some (a', b') -> a = a' /\ b = b'.
Proof. intros [= -> ->]. now split. Qed.

Lemma fraud_transaction_of_ok pattern lo hi :
  lookup String.eqb archetype_ranges pattern = Some (lo, hi) ->
  returns (fraud_transaction_of pattern) (fraud_ok lo hi).
Proof.
  unfold archetype_ranges, fraud_transaction_of. cbn [lookup].
  destruct (pattern =? "high_amount_unknown_merchant").
  { intros E. apply Some_pair_inv in E as [<- <-].
    exact high_amount_unknown_merchant_ok. }
  destruct (pattern =? "multiple_small_amounts").
  { intros E. apply Some_pair_inv in E as [<- <-].
    exact multiple_small_amounts_ok. }
  destruct (pattern =? "foreign_location").
  { intros E. apply Some_pair_inv in E as [<- <-].
    exact foreign_location_ok. }
  destruct (pattern =? "unusual_time").
  { intros E. apply Some_pair_inv in E as [<- <-].
    exact unusual_time_ok. }
  destruct (pattern =? "prepaid_card_pattern").
  { intros E. apply Some_pair_inv in E as [<- <-].
    exact prepaid_card_pattern_ok. }
  discriminate.
Qed.

Lemma fraud_patterns_ranged pattern :
  In pattern fraud_patterns ->
  exists lo hi, lookup String.eqb archetype_ranges pattern = Some (lo, hi).
Proof.
  intros H.
  destruct (In_lookup archetype_ranges pattern H) as [[lo hi] E].
  now exists lo, hi.
Qed.

(** [_generate_fraud_transaction] draws one of the five archetypes and
    returns a transaction of it. *)
Lemma _generate_fraud_transaction_ok :
  returns _generate_fraud_transaction
    (fun t => exists pattern lo hi,
       In pattern fraud_patterns /\
       lookup String.eqb archetype_ranges pattern = Some (lo, hi) /\
       fraud_ok lo hi t).
Proof.
  unfold _generate_fraud_transaction.
  eapply returns_bind; [apply returns_choice; discriminate|].
  intros pattern Hp.
  destruct (fraud_patterns_ranged pattern Hp) as (lo & hi & E).
  eapply returns_weaken; [exact (fraud_transaction_of_ok pattern lo hi E)|].
  intros t Ht. exists pattern, lo, hi. auto.
Qed.

(** *** The normal path *)

Definition min_amounts : list float :=
  map (fun e => of_int (fst (snd e))) merchant_amount_ranges.
Definition max_amounts : list float :=
  map (fun e => of_int (snd (snd e))) merchant_amount_ranges.
Definition avg_amounts : list Z := [75; 120; 300; 500]%Z.
Definition avg_factors : list float :=
  map (fun a => of_frac a 75) avg_amounts.

Definition hull_of (l : list float) : ival :=
  match ival_hull l with
  | Some i => i
  | None => (0, 0)%Z
  end.

Definition min_ival : ival := Eval vm_compute in hull_of min_amounts.
Definition max_ival : ival := Eval vm_compute in hull_of max_amounts.
Definition factor_ival : ival := Eval vm_compute in hull_of avg_factors.

Lemma range_inside m mn mx :
  In (m, (mn, mx)) merchant_amount_ranges ->
  inside min_ival (of_int mn) /\ inside max_ival (of_int mx).
Proof.
  intros H. split.
  - apply (inside_hull min_amounts); [ival_eval|].
    exact (in_map (fun e => of_int (fst (snd e))) _ _ H).
  - apply (inside_hull max_amounts); [ival_eval|].
    exact (in_map (fun e => of_int (snd (snd e))) _ _ H).
Qed.

Lemma factor_inside avg :
  In avg avg_amounts -> inside factor_ival (of_frac avg 75).
Proof.
  intros H. apply (inside_hull avg_factors); [ival_eval|].
  exact (in_map (fun a => of_frac a 75) _ _ H).
Qed.

Definition hour_weights : list float := map snd hourly_weights.

Lemma hourly_weights_read :
  returns (for_each (getitem_int hourly_weights) (map Z.of_nat (seq 0 24)))
          (fun ws => ws = hour_weights).
Proof.
  intros w. exists hour_weights, w.
  split; [vm_compute; reflexivity|].
  split; [apply only_mt_refl | reflexivity].
Qed.

Lemma _generate_realistic_hour_ok :
  returns _generate_realistic_hour (fun _ => True).
Proof.
  unfold _generate_realistic_hour. cbv zeta.
  eapply returns_bind; [apply hourly_weights_read|].
  intros ws ->.
  eapply returns_weaken; [apply returns_choices; ival_eval | auto].
Qed.

Lemma location_choice_ok :
  returns (choices locations (repeat (of_int 5) 20 ++ [of_int 1; dec 1 1]))
          (fun l => In l locations).
Proof. apply returns_choices. ival_eval. Qed.

Lemma card_choice_ok :
  returns (choices card_types [of_int 50; of_int 45; of_int 5])
          (fun c => In c card_types).
Proof. apply returns_choices. ival_eval. Qed.

Lemma profile_choice_ok :
  returns (choices (map fst user_profiles)
                   [of_int 70; of_int 20; of_int 8; of_int 2])
          (fun name => In name (map fst user_profiles)).
Proof. apply returns_choices. ival_eval. Qed.

(** What the normal path needs of a profile. *)
Definition profile_ok (profile : Profile) : bool :=
  negb (List.length (preferred_merchants profile) =? 0)%nat
  && forallb (fun m => existsb (String.eqb m) (map fst merchant_amount_ranges))
             (preferred_merchants profile)
  && existsb (Z.eqb (avg_amount profile)) avg_amounts.

Lemma existsb_In_string (m : string) (l : list string) :
  existsb (String.eqb m) l = true -> In m l.
Proof.
  intros H. apply existsb_exists in H as (x & Hx & E).
  apply String.eqb_eq in E. now subst.
Qed.

Lemma _generate_normal_transaction_ok profile :
  profile_ok profile = true ->
  returns (_generate_normal_transaction profile)
          (fun t => amount_ok (amount t) /\ user_profile t = "normal").
Proof.
  unfold profile_ok. intros H.
  apply andb_prop in H as [H H3]. apply andb_prop in H as [H1 H2].
  assert (Hne : preferred_merchants profile <> []).
  { intros E. rewrite E in H1. discriminate H1. }
  assert (Havg : In (avg_amount profile) avg_amounts).
  { apply existsb_exists in H3 as (x & Hx & E).
    apply Z.eqb_eq in E. now subst. }
  rewrite forallb_forall in H2.
  unfold _generate_normal_transaction.
  eapply returns_bind; [apply returns_choice; exact Hne|].
  intros m Hm.
  destruct (In_lookup merchant_amount_ranges m
              (existsb_In_string _ _ (H2 m Hm))) as [[mn mx] E].
  eapply returns_bind; [apply returns_getitem; exact E|].
  intros r <-. cbv beta iota.
  destruct (range_inside m mn mx (lookup_In _ _ _ E)) as [Hmin Hmax].
  eapply returns_bind;
    [eapply returns_uniform; [exact Hmin | exact Hmax | ival_eval ..]|].
  intros base Hbase.
  eapply returns_bind;
    [eapply returns_uniform; [ival | ival | ival_eval ..]|].
  intros jitter Hjitter.
  pose proof (factor_inside _ Havg) as Hfactor.
  cbv zeta.
  eapply returns_bind; [apply _generate_realistic_hour_ok|]. intros hour _.
  eapply returns_bind; [apply location_choice_ok|]. intros location _.
  eapply returns_bind; [apply card_choice_ok|]. intros card_type _.
  apply returns_ret. split; [| reflexivity].
  cbn [amount].
  eapply rounded_amount_ok; [ival | ival_eval ..].
Qed.

Lemma user_profiles_ok name profile :
  lookup String.eqb user_profiles name = Some profile ->
  profile_ok profile = true.
Proof.
  intros H. apply lookup_In in H.
  assert (A : forallb profile_ok (map snd user_profiles) = true) by ival_eval.
  rewrite forallb_forall in A. apply A.
  exact (in_map snd _ _ H).
Qed.

(** *** [generate_transaction] *)

Lemma fraud_ok_amount lo hi t : fraud_ok lo hi t -> amount_ok (amount t).
Proof. intros (_ & _ & _ & H). exact H. Qed.

Lemma generate_transaction_with name :
  In name (map fst user_profiles) ->
  returns (bind (getitem user_profiles name)
             (fun profile =>
                bind random (fun u =>
                  if flt u (fraud_probability profile)
                  then _generate_fraud_transaction
                  else _generate_normal_transaction profile)))
          (fun t => amount_ok (amount t)).
Proof.
  intros Hn. destruct (In_lookup user_profiles name Hn) as [profile E].
  eapply returns_bind; [apply returns_getitem; exact E|].
  intros p <-.
  eapply returns_bind; [apply returns_random|]. intros u _.
  destruct (flt u (fraud_probability profile)).
  - eapply returns_weaken; [apply _generate_fraud_transaction_ok|].
    intros t (pattern & lo & hi & _ & _ & H). exact (fraud_ok_amount _ _ _ H).
  - eapply returns_weaken;
      [apply _generate_normal_transaction_ok;
       exact (user_profiles_ok name profile E)|].
    intros t [H _]. exact H.
Qed.

Lemma generate_transaction_ok (user_profile : option string) :
  match user_profile with
  | Some name => In name (map fst user_profiles)
  | None => True
  end ->
  returns (generate_transaction user_profile) (fun t => amount_ok (amount t)).
Proof.
  unfold generate_transaction. destruct user_profile as [name |]; intros H.
  - eapply (returns_bind _ _ (fun n => In n (map fst user_profiles)));
      [apply returns_ret; exact H|].
    intros n Hn. exact (generate_transaction_with n Hn).
  - eapply returns_bind; [apply profile_choice_ok|].
    intros n Hn. exact (generate_transaction_with n Hn).
Qed.

(** *** Unknown profile names *)

Lemma bind_raise {A B : Type} (m : M A) (f : A -> M B) w e :
  m w = Raise e -> bind m f w = Raise e.
Proof. intros H. unfold bind. now rewrite H. Qed.

Lemma bind_ret {A B : Type} (a : A) (f : A -> M B) w :
  bind (ret a) f w = f a w.
Proof. reflexivity. Qed.

Lemma getitem_raises {V : Type} (d : dict string V) (k : string) w :
  ~ In k (map fst d) -> getitem d k w = Raise (KeyError (KStr k)).
Proof. intros H. unfold getitem. now rewrite (lookup_None d k H). Qed.

(** *** Batches and sessions *)

Lemma batch_loop_ok count transactions :
  Forall (fun t => amount_ok (amount t)) transactions ->
  returns (batch_loop count transactions)
          (fun l => Forall (fun t => amount_ok (amount t)) l /\
                    List.length l = (List.length transactions + count)%nat).
Proof.
  revert transactions.
  induction count as [| count IH]; intros transactions H; cbn [batch_loop].
  - apply returns_ret. split; [exact H | lia].
  - eapply returns_bind; [apply (generate_transaction_ok None); exact I|].
    intros t Ht.
    eapply returns_weaken.
    + apply IH. apply Forall_app. split; [exact H | now constructor].
    + intros l [Hl Hn]. split; [exact Hl|].
      rewrite Hn, length_app. cbn [List.length]. lia.
Qed.

(** The identifier a session gives to a transaction: the first eight
    characters of the UUID made from one draw of [os.urandom]. *)
Definition session_token (r : Z) : string :=
  substring 0 8 (uuid_str (uuid4_int r)).

(** The [i]-th draw to come from a stream. *)
Definition nth_draw (s : stream) (i : nat) : Z := src s (i + pos s).

Lemma string_length_app (s t : string) :
  String.length (s ++ t) = (String.length s + String.length t)%nat.
Proof. induction s as [| c s IH]; cbn; [reflexivity | now rewrite IH]. Qed.

Lemma substring_0_length (n : nat) (s : string) :
  (n <= String.length s)%nat -> String.length (substring 0 n s) = n.
Proof.
  revert s. induction n as [| n IH]; intros s H.
  - destruct s; reflexivity.
  - destruct s as [| c s]; cbn in H |- *; [lia|].
    rewrite IH by lia. reflexivity.
Qed.

Lemma hex_fixed_length (width : nat) (n : Z) :
  String.length (hex_fixed width n) = width.
Proof.
  revert n. induction width as [| width IH]; intros n; cbn [hex_fixed].
  - reflexivity.
  - rewrite string_length_app, IH. cbn. lia.
Qed.

Lemma session_token_length (r : Z) : String.length (session_token r) = 8%nat.
Proof.
  unfold session_token, uuid_str. cbv zeta.
  apply substring_0_length.
  rewrite string_length_app.
  rewrite substring_0_length by (rewrite hex_fixed_length; lia). lia.
Qed.

Lemma uuid4_eq w :
  uuid4 w =
  Ok (uuid_str (uuid4_int (nth_draw (urandom w) 0)),
      mkWorld (mt w) (advance (urandom w)) (numpy w) (clock w)).
Proof. reflexivity. Qed.

(** What [generate_user_session] does to a transaction after it is drawn. *)
Definition stamped (t : Transaction) (time : Z) (id : string) : Transaction :=
  {| amount := amount t;
     merchant_type := merchant_type t;
     location := location t;
     time_of_day := time_of_day t;
     card_type := card_type t;
     user_profile := user_profile t;
     timestamp := Some time;
     session_id := Some (substring 0 8 id) |}.

Lemma session_loop_spec name :
  In name (map fst user_profiles) ->
  forall n base_time transactions w,
  exists new w',
    session_loop n name base_time transactions w
    = Ok ((transactions ++ new)%list, w') /\
    List.length new = n /\
    src (urandom w') = src (urandom w) /\
    pos (urandom w') = (n + pos (urandom w))%nat /\
    forall i t, nth_error new i = Some t ->
      session_id t = Some (session_token (nth_draw (urandom w) i)) /\
      amount_ok (amount t).
Proof.
  intros Hname. induction n as [| n IH]; intros base_time transactions w.
  - exists [], w. cbn [session_loop]. unfold ret. rewrite app_nil_r.
    split; [reflexivity|]. split; [reflexivity|].
    split; [reflexivity|]. split; [reflexivity|].
    intros [| i] t; discriminate.
  - destruct (returns_randint 5 120 ltac:(lia) w)
      as (minutes & w1 & E1 & (U1 & _) & _).
    destruct (generate_transaction_ok (Some name) Hname w1)
      as (t & w2 & E2 & (U2 & _) & Hok).
    set (time := (base_time + minutes * minute)%Z).
    set (w3 := mkWorld (mt w2) (advance (urandom w2)) (numpy w2) (clock w2)).
    set (t' := stamped t time (uuid_str (uuid4_int (nth_draw (urandom w2) 0)))).
    destruct (IH time (transactions ++ [t'])%list w3)
      as (new & w' & E3 & L3 & S3 & P3 & I3).
    exists (t' :: new), w'.
    split.
    { cbn [session_loop]. unfold bind at 1. rewrite E1.
      cbv zeta. fold time. unfold bind at 1. rewrite E2.
      unfold bind at 1. rewrite uuid4_eq.
      fold w3. rewrite <- app_assoc in E3. exact E3. }
    assert (Uw : urandom w2 = urandom w) by congruence.
    split; [cbn [List.length]; lia|].
    split; [rewrite S3; subst w3; cbn [urandom advance src]; congruence|].
    split; [rewrite P3; subst w3; cbn [urandom advance pos]; rewrite Uw; lia|].
    intros [| i] u Hu.
    + cbn [nth_error] in Hu. injection Hu as <-.
      split; [| exact Hok].
      subst t'. cbn [stamped session_id]. unfold session_token.
      now rewrite Uw.
    + cbn [nth_error] in Hu. destruct (I3 i u Hu) as [Hid Ha].
      split; [| exact Ha].
      rewrite Hid. unfold nth_draw. subst w3.
      cbn [urandom advance src pos]. rewrite Uw.
      do 3 f_equal. lia.
Qed.

(** A world for the examples: the 128 bits of the [n]-th UUID are [n]
    followed by 96 zero bits. *)
Definition example_world : world :=
  {| mt := mkStream (fun n => 7919 * Z.of_nat n + 104729 * 2 ^ 40)%Z 0;
     urandom := mkStream (fun n => Z.of_nat n * 2 ^ 96)%Z 0;
     numpy := mkStream (fun _ => 3%Z) 0;
     clock := 0 |}.

Lemma generate_user_session_eq name profile session_length w :
  lookup String.eqb user_profiles name = Some profile ->
  generate_user_session name (Some session_length) w
  = session_loop (Z.to_nat session_length) name (clock w) [] w.
Proof.
  intros Ep. unfold generate_user_session.
  unfold bind at 1. unfold getitem. rewrite Ep. reflexivity.
Qed.

(** *** The claims on the generator *)

(** C6.  A profile name that is not one of the four configured profiles
    makes [generate_transaction] and [generate_user_session] raise
    [KeyError] on that name: there is no default profile. *)
Theorem unknown_profile_raises (name : string) (w : world) :
  ~ In name ["normal_user"; "heavy_user"; "business_user"; "suspicious_user"] ->
  generate_transaction (Some name) w = Raise (KeyError (KStr name)) /\
  forall session_length,
    generate_user_session name session_length w = Raise (KeyError (KStr name)).
Proof.
  intros H. split.
  - unfold generate_transaction. rewrite bind_ret.
    apply bind_raise. apply getitem_raises. exact H.
  - intros session_length. unfold generate_user_session.
    apply bind_raise. apply getitem_raises. exact H.
Qed.

Lemma unknown_profile_raises_witness :
  ~ In "vip_user"
       ["normal_user"; "heavy_user"; "business_user"; "suspicious_user"] /\
  (generate_transaction (Some "vip_user") example_world
   = Raise (KeyError (KStr "vip_user")) /\
   forall session_length,
     generate_user_session "vip_user" session_length example_world
     = Raise (KeyError (KStr "vip_user"))).
Proof.
  assert (H : ~ In "vip_user"
       ["normal_user"; "heavy_user"; "business_user"; "suspicious_user"]).
  { cbn [In]. intros [E | [E | [E | [E | []]]]]; discriminate E. }
  split; [exact H | exact (unknown_profile_raises "vip_user" example_world H)].
Defined.

(** C7.  Every transaction the generator produces, on the normal path for
    each configured profile, for each fraud archetype, from
    [generate_transaction], in a batch or in a session, has an amount of at
    least [0.01] that is a decimal with two fractional digits (as a
    float). *)
Theorem generated_amounts_ok :
  (forall name profile w,
     lookup String.eqb user_profiles name = Some profile ->
     exists t w', _generate_normal_transaction profile w = Ok (t, w') /\
                  amount_ok (amount t)) /\
  (forall w,
     exists t w', _generate_fraud_transaction w = Ok (t, w') /\
                  amount_ok (amount t)) /\
  (forall user_profile w t w',
     generate_transaction user_profile w = Ok (t, w') ->
     amount_ok (amount t)) /\
  (forall count w,
     exists l w', generate_batch_transactions count w = Ok (l, w') /\
                  Forall (fun t => amount_ok (amount t)) l) /\
  (forall name session_length w l w',
     generate_user_session name (Some session_length) w = Ok (l, w') ->
     Forall (fun t => amount_ok (amount t)) l).
Proof.
  split; [| split; [| split; [| split]]].
  - intros name profile w E.
    destruct (_generate_normal_transaction_ok profile
                (user_profiles_ok name profile E) w)
      as (t & w' & Et & _ & Ha & _).
    now exists t, w'.
  - intros w.
    destruct (_generate_fraud_transaction_ok w)
      as (t & w' & Et & _ & pattern & lo & hi & _ & _ & H).
    exists t, w'. split; [exact Et | exact (fraud_ok_amount _ _ _ H)].
  - intros [name |] w t w' E.
    + destruct (in_dec string_dec name (map fst user_profiles)) as [Hin | Hout].
      * destruct (generate_transaction_ok (Some name) Hin w)
          as (t0 & w0 & E0 & _ & H).
        rewrite E0 in E. injection E as <- <-. exact H.
      * unfold generate_transaction in E. rewrite bind_ret in E.
        rewrite (bind_raise _ _ _ _ (getitem_raises _ name w Hout)) in E.
        discriminate E.
    + destruct (generate_transaction_ok None I w) as (t0 & w0 & E0 & _ & H).
      rewrite E0 in E. injection E as <- <-. exact H.
  - intros count w. unfold generate_batch_transactions.
    destruct (batch_loop_ok (Z.to_nat count) [] (Forall_nil _) w)
      as (l & w' & E & _ & H & _).
    now exists l, w'.
  - intros name session_length w l w' E.
    destruct (in_dec string_dec name (map fst user_profiles)) as [Hin | Hout].
    + destruct (In_lookup user_profiles name Hin) as [profile Ep].
      rewrite (generate_user_session_eq name profile _ w Ep) in E.
      destruct (session_loop_spec name Hin (Z.to_nat session_length)
                  (clock w) [] w) as (new & w1 & E1 & _ & _ & _ & H).
      rewrite E1 in E. injection E as <- <-.
      apply Forall_forall. intros t Ht.
      apply In_nth_error in Ht as [i Hi].
      exact (proj2 (H i t Hi)).
    + unfold generate_user_session in E.
      rewrite (bind_raise _ _ _ _ (getitem_raises _ name w Hout)) in E.
      discriminate E.
Qed.

(** C8.  Every transaction of the fraud-pattern generator is tagged
    ["fraudulent"] and its amount lies in the literal range of the archetype
    drawn: for each archetype whatever the draws, and for
    [_generate_fraud_transaction], which always runs one of the five. *)
Theorem fraud_archetype_ranges :
  (forall pattern lo hi w,
     lookup String.eqb archetype_ranges pattern = Some (lo, hi) ->
     exists t w',
       fraud_transaction_of pattern w = Ok (t, w') /\
       user_profile t = "fraudulent" /\
       fle lo (amount t) = true /\ fle (amount t) hi = true) /\
  (forall w,
     exists pattern w1 lo hi t w',
       choice fraud_patterns w = Ok (pattern, w1) /\
       In pattern fraud_patterns /\
       lookup String.eqb archetype_ranges pattern = Some (lo, hi) /\
       fraud_transaction_of pattern w1 = Ok (t, w') /\
       _generate_fraud_transaction w = Ok (t, w') /\
       user_profile t = "fraudulent" /\
       fle lo (amount t) = true /\ fle (amount t) hi = true).
Proof.
  split.
  - intros pattern lo hi w E.
    destruct (fraud_transaction_of_ok pattern lo hi E w)
      as (t & w' & Et & _ & Hp & Hlo & Hhi & _).
    now exists t, w'.
  - intros w.
    destruct (returns_choice fraud_patterns ltac:(discriminate) w)
      as (pattern & w1 & E1 & _ & Hin).
    destruct (fraud_patterns_ranged pattern Hin) as (lo & hi & E).
    destruct (fraud_transaction_of_ok pattern lo hi E w1)
      as (t & w' & Et & _ & Hp & Hlo & Hhi & _).
    exists pattern, w1, lo, hi, t, w'.
    repeat (split; [assumption|]).
    split; [| auto].
    unfold _generate_fraud_transaction, bind. rewrite E1. exact Et.
Qed.

(** C5, as the code has it.  For a configured profile and a session of
    [n] transactions, [generate_user_session] returns [n] transactions and
    the [i]-th carries the eight-character token made from the [i]-th draw
    of [os.urandom] that follows: one identifier per transaction. *)
Theorem session_ids_per_transaction (name : string) (n : nat) (w : world) :
  In name (map fst user_profiles) ->
  exists txs w',
    generate_user_session name (Some (Z.of_nat n)) w = Ok (txs, w') /\
    List.length txs = n /\
    forall i t, nth_error txs i = Some t ->
      session_id t = Some (session_token (nth_draw (urandom w) i)) /\
      String.length (session_token (nth_draw (urandom w) i)) = 8%nat.
Proof.
  intros Hin.
  destruct (In_lookup user_profiles name Hin) as [profile Ep].
  destruct (session_loop_spec name Hin n (clock w) [] w)
    as (new & w1 & E1 & L1 & _ & _ & H).
  exists new, w1. split; [| split; [exact L1|]].
  - rewrite (generate_user_session_eq name profile _ w Ep).
    rewrite Nat2Z.id. exact E1.
  - intros i t Hi. split; [exact (proj1 (H i t Hi))|].
    apply session_token_length.
Qed.

Lemma session_ids_per_transaction_witness :
  In "normal_user" (map fst user_profiles) /\
  exists txs w',
    generate_user_session "normal_user" (Some (Z.of_nat 2)) example_world
    = Ok (txs, w') /\
    List.length txs = 2%nat /\
    forall i t, nth_error txs i = Some t ->
      session_id t
      = Some (session_token (nth_draw (urandom example_world) i)) /\
      String.length (session_token (nth_draw (urandom example_world) i))
      = 8%nat.
Proof.
  assert (H : In "normal_user" (map fst user_profiles)) by (now left).
  split; [exact H|].
  exact (session_ids_per_transaction "normal_user" 2 example_world H).
Defined.

(** C5, as the specification states it, fails: in this session of two
    transactions the two identifiers differ. *)
Lemma session_ids_differ :
  exists t1 t2 w',
    generate_user_session "normal_user" (Some 2%Z) example_world
    = Ok ([t1; t2], w') /\
    session_id t1 = Some "00000000" /\
    session_id t2 = Some "00000001" /\
    session_id t1 <> session_id t2.
Proof.
  eexists _, _, _.
  split; [vm_compute; reflexivity|].
  split; [reflexivity|]. split; [reflexivity|]. discriminate.
Qed.

End GeneratorFacts.

(* ================================================================= *)
(** ** The scorer: what the decision entails *)

Module DecisionFacts.
Import Scorer PyFloatFacts ScorerFacts.

(** Every value of the interval is above (resp. not above) [c]. *)
Definition ival_gt (i : ival) (c : float) : bool :=
  match c with
  | Finite v => (v <? fst i)%Z
  | _ => false
  end.

Lemma inside_gt i c x : inside i x -> ival_gt i c = true -> fgt x c = true.
Proof.
  intros (a & -> & Ha) G. destruct c as [v | |]; try discriminate G.
  cbn in G |- *. apply Z.ltb_lt in G. apply Z.ltb_lt. lia.
Qed.

(** [x > c] fails for every larger [c] once it fails for one. *)
Lemma fgt_false_mono x c c' :
  fgt x (Finite c) = false -> (c <= c')%Z -> fgt x (Finite c') = false.
Proof.
  destruct x as [a | s |]; cbn; intros H L; try assumption; try reflexivity.
  apply Z.ltb_ge in H. apply Z.ltb_ge. lia.
Qed.

(** The running score after the amount tier, for an amount above the
    high-amount threshold. *)
Lemma amount_risk_high amount :
  fgt amount high_amount_threshold = true ->
  In (amount_risk (dec 0 1) amount)
     [fadd (dec 0 1) (dec 5 1); fadd (dec 0 1) (dec 3 1)].
Proof.
  intros H. unfold amount_risk. rewrite H.
  destruct (fgt amount very_high_amount_threshold); cbn [In]; auto.
Qed.

Lemma score_of_high a m l t c :
  In a [fadd (dec 0 1) (dec 5 1); fadd (dec 0 1) (dec 3 1)] ->
  In m (dec 2 1 :: map snd merchant_risk_scores) ->
  In l (dec 2 1 :: map snd location_risk_scores) ->
  In t (dec 2 1 :: map snd time_risk_scores) ->
  In c (dec 2 1 :: map snd card_risk_scores) ->
  fgt (score_of a m l t c) (dec 6 1) = true.
Proof.
  intros Ha Hm Hl Ht Hc.
  eapply inside_hull in Ha; [| ival_eval].
  eapply inside_hull in Hm; [| ival_eval].
  eapply inside_hull in Hl; [| ival_eval].
  eapply inside_hull in Ht; [| ival_eval].
  eapply inside_hull in Hc; [| ival_eval].
  eapply inside_gt; [unfold score_of; ival | ival_eval].
Qed.

Lemma int_of_bool_1 (b : bool) : (int_of_bool b =? 1)%Z = b.
Proof. now destruct b. Qed.

(** Two transactions for the examples: a large purchase with the least
    risky fields, and an ATM withdrawal at night without amount. *)
Definition large_grocery : Transaction :=
  mkTransaction (Some (of_int 2500)) (Some "grocery") (Some "IL")
                (Some "morning") (Some "debit").

Definition atm_no_amount : Transaction :=
  mkTransaction None (Some "atm") (Some "NY") (Some "night") (Some "prepaid").

Section Decision.
Context {case_map : CaseMap}.

Lemma is_anomaly_eq self transaction :
  is_anomaly (snd (predict self transaction))
  = int_of_bool (detect_anomalies transaction).
Proof. reflexivity. Qed.

(** Flagged by a scorer whose counters are anything: [predict] reads none
    of them. *)
Definition flagged (transaction : Transaction) : bool :=
  (prediction (snd (predict init transaction)) =? 1)%Z.

Lemma flagged_eq transaction : flagged transaction = is_fraud transaction.
Proof. unfold flagged. rewrite prediction_eq. apply int_of_bool_1. Qed.

(** The counters after [predict] has been called on each transaction of a
    list, from any counters. *)
Lemma predict_all_from self transactions :
  let s := predict_all self transactions in
  total_transactions s
  = (total_transactions self + Z.of_nat (List.length transactions))%Z /\
  fraud_detected s
  = (fraud_detected self
     + Z.of_nat (List.length (filter flagged transactions)))%Z /\
  normal_transactions s
  = (normal_transactions self
     + Z.of_nat (List.length
                   (filter (fun t => negb (flagged t)) transactions)))%Z.
Proof.
  cbv zeta. unfold predict_all. revert self.
  induction transactions as [| t ts IH]; intros self;
    cbn [fold_left List.length filter].
  - lia.
  - destruct (IH (fst (predict self t))) as (I1 & I2 & I3).
    rewrite I1, I2, I3. rewrite predict_self, flagged_eq.
    destruct (is_fraud t);
      cbn [negb List.length total_transactions fraud_detected
           normal_transactions]; lia.
Qed.

Lemma filter_length_le {A : Type} (f : A -> bool) (l : list A) :
  (List.length (filter f l) <= List.length l)%nat.
Proof.
  induction l as [| a l IH]; cbn [filter List.length]; [lia|].
  destruct (f a); cbn [List.length]; lia.
Qed.

Lemma filter_split_length {A : Type} (f : A -> bool) (l : list A) :
  (List.length (filter f l) + List.length (filter (fun a => negb (f a)) l)
   = List.length l)%nat.
Proof.
  induction l as [| a l IH]; cbn [filter List.length]; [reflexivity|].
  destruct (f a); cbn [negb List.length]; lia.
Qed.

(** X1.  The confidence [predict] returns takes two values only: [0.9] for
    a flagged transaction and [0.7] for any other, since a score of at
    least [0.4] leaves [1.0 - score] below [0.7]. *)
Theorem confidence_two_values (self : Detector) (transaction : Transaction) :
  let r := snd (predict self transaction) in
  confidence r = if (prediction r =? 1)%Z then dec 9 1 else dec 7 1.
Proof.
  intros r.
  pose proof (prediction_eq self transaction) as EP.
  pose proof (confidence_eq self transaction) as EC.
  pose proof (risk_score_inside transaction) as Hs.
  change (snd (predict self transaction)) with r in EP, EC.
  clearbody r.
  rewrite EP, EC, int_of_bool_1. clear EP EC.
  destruct (is_fraud transaction).
  - rewrite confidence_of_true. eapply inside_point; [ival | ival_eval].
  - rewrite confidence_of_false. eapply inside_point; [ival | ival_eval].
Qed.

(** X2.  A transaction whose amount exceeds the high-amount threshold
    ([2000]) is flagged whatever its other fields: the amount tier adds at
    least [0.3] and the four lookups at least [0.4], which is above the
    fraud threshold [0.6]. *)
Theorem high_amount_is_flagged (self : Detector) (transaction : Transaction) :
  fgt (get (amount transaction) (of_int 0)) high_amount_threshold = true ->
  fgt (calculate_risk_score transaction) (dec 6 1) = true /\
  prediction (snd (predict self transaction)) = 1%Z.
Proof.
  intros H.
  assert (S : fgt (calculate_risk_score transaction) (dec 6 1) = true).
  { rewrite calculate_risk_score_eq. apply score_of_high.
    - apply amount_risk_high. exact H.
    - exact (dict_get_In _ _ _).
    - exact (dict_get_In _ _ _).
    - exact (dict_get_In _ _ _).
    - exact (dict_get_In _ _ _). }
  split; [exact S|].
  rewrite prediction_eq.
  assert (F : is_fraud transaction = true) by (apply is_fraud_iff; now left).
  rewrite F. reflexivity.
Qed.

(** X3.  No anomaly rule fires unless the amount exceeds [300]: a
    transaction whose amount is at most [300], is [NaN], or is missing is
    never anomalous. *)
Theorem no_anomaly_up_to_300 (transaction : Transaction) :
  fgt (get (amount transaction) (of_int 0)) (of_int 300) = false ->
  detect_anomalies transaction = false /\
  is_anomaly (snd (predict init transaction)) = 0%Z.
Proof.
  intros H.
  assert (D : detect_anomalies transaction = false).
  { rewrite detect_anomalies_eq. unfold any_rule.
    assert (E300 : of_int 300 = Finite (300 * scale)) by ival_eval.
    assert (E500 : of_int 500 = Finite (500 * scale)) by ival_eval.
    assert (E800 : of_int 800 = Finite (800 * scale)) by ival_eval.
    assert (E1000 : of_int 1000 = Finite (1000 * scale)) by ival_eval.
    rewrite E300 in H.
    assert (P : (0 < scale)%Z) by reflexivity.
    rewrite E300, E500, E800, E1000.
    rewrite H.
    rewrite (fgt_false_mono _ _ (500 * scale) H) by lia.
    rewrite (fgt_false_mono _ _ (800 * scale) H) by lia.
    rewrite (fgt_false_mono _ _ (1000 * scale) H) by lia.
    rewrite !andb_false_r. reflexivity. }
  split; [exact D|].
  rewrite is_anomaly_eq, D. reflexivity.
Qed.

(** X4.  After [predict] has run on each transaction of a list, from fresh
    counters, [fraud_detected] is the number of transactions it flagged and
    [normal_transactions] the number it did not. *)
Theorem predict_all_counts_flagged (transactions : list Transaction) :
  let s := predict_all init transactions in
  fraud_detected s = Z.of_nat (List.length (filter flagged transactions)) /\
  normal_transactions s
  = Z.of_nat (List.length (filter (fun t => negb (flagged t)) transactions)).
Proof.
  intros s. subst s.
  destruct (predict_all_from init transactions) as (_ & F & N).
  cbv zeta in F, N. rewrite F, N. cbn [init fraud_detected normal_transactions].
  split; lia.
Qed.

End Decision.

Lemma high_amount_is_flagged_witness :
  fgt (get (amount large_grocery) (of_int 0)) high_amount_threshold = true /\
  (fgt (calculate_risk_score large_grocery) (dec 6 1) = true /\
   prediction (snd (predict init large_grocery)) = 1%Z).
Proof.
  assert (H : fgt (get (amount large_grocery) (of_int 0))
                  high_amount_threshold = true) by (vm_compute; reflexivity).
  split; [exact H | exact (high_amount_is_flagged init large_grocery H)].
Defined.

Lemma no_anomaly_up_to_300_witness :
  fgt (get (amount atm_no_amount) (of_int 0)) (of_int 300) = false /\
  (detect_anomalies atm_no_amount = false /\
   is_anomaly (snd (predict init atm_no_amount)) = 0%Z).
Proof.
  assert (H : fgt (get (amount atm_no_amount) (of_int 0)) (of_int 300)
              = false) by (vm_compute; reflexivity).
  split; [exact H | exact (no_anomaly_up_to_300 atm_no_amount H)].
Defined.

End DecisionFacts.

(* ================================================================= *)
(** ** The statistics ([get_stats]) and the endpoints *)

Module ApiFacts.
Import Scorer Api PyFloatFacts ScorerFacts Effects DecisionFacts.

(** [lo <= x <= hi], for two integer literals. *)
Definition between (lo hi : Z) (x : float) : Prop :=
  fle (of_int lo) x = true /\ fle x (of_int hi) = true.

(** The interval [[0, 1]]. *)
Definition ratio_ival : ival := (0, scale)%Z.

Lemma int_truediv_inside a b :
  (0 <= a <= b)%Z -> (0 < b)%Z -> inside ratio_ival (int_truediv a b).
Proof.
  intros Ha Hb. unfold int_truediv, of_frac.
  rewrite Z2Pos.id by exact Hb.
  pose proof scale_pos as Hs.
  assert (L : (0 <= rnd (a * scale) b 0)%Z) by (apply rnd_nonneg; nia).
  assert (U : (rnd (a * scale) b 0 <= scale)%Z).
  { rewrite <- (rnd_unit b Hb) at 2. apply rnd_mono; nia. }
  exists (rnd (a * scale) b 0). split; [| exact (conj L U)].
  apply pack_finite; [exact L|].
  assert (scale < overflow)%Z by reflexivity. lia.
Qed.

(** A rate: the ratio, times [100], rounded to two decimals. *)
Lemma rate_between a b :
  (0 <= a <= b)%Z -> (0 < b)%Z ->
  between 0 100 (py_round (fmul (int_truediv a b) (of_int 100)) 2).
Proof.
  intros Ha Hb. pose proof (int_truediv_inside a b Ha Hb) as H.
  unfold between.
  eapply inside_within;
    [eapply inside_round;
       [eapply inside_mul;
          [exact H | eapply inside_const; ival_eval | ival_eval]
       | ival_eval]
    | ival_eval].
Qed.

Lemma zero_rate : py_round (of_int 0) 2 = of_int 0.
Proof. ival_eval. Qed.

(** [round(uniform(lo, hi), 2)] for two integer literals, checked by
    evaluation on the two end points. *)
Lemma returns_metric lo hi ia ib d p r k :
  ival_const (of_int lo) = Some ia -> ival_const (of_int hi) = Some ib ->
  ival_sub ib ia = Some d -> ival_mul d unit_ival = Some p ->
  ival_add ia p = Some r -> ival_round 2 r = Some k ->
  ival_within k (of_int lo) (of_int hi) = true ->
  returns (uniform (of_int lo) (of_int hi))
          (fun x => between lo hi (py_round x 2)).
Proof.
  intros Ea Eb Ed Ep Er Ek W.
  eapply returns_weaken.
  - eapply returns_uniform;
      [apply inside_const; exact Ea | apply inside_const; exact Eb
       | exact Ed | exact Ep | exact Er].
  - intros x Hx. unfold between.
    eapply inside_within; [eapply inside_round; [exact Hx | exact Ek] | exact W].
Qed.

(** The two rates [get_stats] computes, before it draws the metrics. *)
Definition rate_of (self : Detector) (count : Z) : float :=
  py_round
    (if (0 <? total_transactions self)%Z
     then fmul (int_truediv count (total_transactions self)) (of_int 100)
     else of_int 0) 2.

Lemma rate_of_between self count :
  (0 <= count <= total_transactions self)%Z ->
  between 0 100 (rate_of self count).
Proof.
  intros H. unfold rate_of.
  destruct (Z.ltb_spec 0 (total_transactions self)) as [P | P].
  - apply rate_between; assumption.
  - rewrite zero_rate. unfold between. split; ival_eval.
Qed.

(** [get_stats] raises nothing: it copies the counters, computes the two
    rates and draws the three metrics. *)
Lemma get_stats_returns (self : Detector) :
  returns (get_stats self)
    (fun s =>
       stats_total_transactions s = total_transactions self /\
       stats_fraud_detected s = fraud_detected self /\
       stats_normal_transactions s = normal_transactions self /\
       fraud_rate s = rate_of self (fraud_detected self) /\
       normal_rate s = rate_of self (normal_transactions self) /\
       between 85 95 (accuracy s) /\ between 80 90 (precision s) /\
       between 75 85 (recall s)).
Proof.
  unfold get_stats, rate_of.
  destruct (0 <? total_transactions self)%Z; cbv beta iota;
    (eapply returns_bind; [eapply returns_metric; [ival_eval ..] | intros a Ha]);
    (eapply returns_bind; [eapply returns_metric; [ival_eval ..] | intros p Hp]);
    (eapply returns_bind; [eapply returns_metric; [ival_eval ..] | intros r Hr]);
    apply returns_ret;
    cbn [stats_total_transactions stats_fraud_detected
         stats_normal_transactions fraud_rate normal_rate accuracy precision
         recall]; auto 10.
Qed.

(** Counters after three predictions, one of them flagged. *)
Definition three_counted : Detector := mkDetector 3 1 2.

(** X5.  For counters as [predict] can leave them, [get_stats] raises
    nothing, reports the three counters as they are, two rates within
    [[0, 100]], and an accuracy, a precision and a recall within
    [[85, 95]], [[80, 90]] and [[75, 85]]. *)
Theorem get_stats_report (self : Detector) :
  (0 <= fraud_detected self <= total_transactions self)%Z ->
  (0 <= normal_transactions self <= total_transactions self)%Z ->
  returns (get_stats self)
    (fun s =>
       stats_total_transactions s = total_transactions self /\
       stats_fraud_detected s = fraud_detected self /\
       stats_normal_transactions s = normal_transactions self /\
       between 0 100 (fraud_rate s) /\ between 0 100 (normal_rate s) /\
       between 85 95 (accuracy s) /\ between 80 90 (precision s) /\
       between 75 85 (recall s)).
Proof.
  intros Hf Hn.
  pose proof (rate_of_between self _ Hf) as Rf.
  pose proof (rate_of_between self _ Hn) as Rn.
  eapply returns_weaken; [apply get_stats_returns|].
  intros s (S1 & S2 & S3 & Ef & En & Ma & Mp & Mr).
  rewrite Ef, En. auto 10.
Qed.

Lemma get_stats_report_witness :
  (0 <= fraud_detected three_counted <= total_transactions three_counted)%Z /\
  (0 <= normal_transactions three_counted
   <= total_transactions three_counted)%Z /\
  returns (get_stats three_counted)
    (fun s =>
       stats_total_transactions s = total_transactions three_counted /\
       stats_fraud_detected s = fraud_detected three_counted /\
       stats_normal_transactions s = normal_transactions three_counted /\
       between 0 100 (fraud_rate s) /\ between 0 100 (normal_rate s) /\
       between 85 95 (accuracy s) /\ between 80 90 (precision s) /\
       between 75 85 (recall s)).
Proof.
  assert (Hf : (0 <= fraud_detected three_counted
                <= total_transactions three_counted)%Z) by (cbn; lia).
  assert (Hn : (0 <= normal_transactions three_counted
                <= total_transactions three_counted)%Z) by (cbn; lia).
  split; [exact Hf | split; [exact Hn|]].
  exact (get_stats_report three_counted Hf Hn).
Defined.

(** X6.  Before any transaction has been counted, [get_stats] divides
    nothing: both rates are [0]. *)
Theorem get_stats_no_transactions (self : Detector) :
  (total_transactions self <= 0)%Z ->
  returns (get_stats self)
    (fun s => fraud_rate s = of_int 0 /\ normal_rate s = of_int 0).
Proof.
  intros H. unfold get_stats.
  destruct (Z.ltb_spec 0 (total_transactions self)) as [P | _]; [lia|].
  cbv beta iota.
  eapply returns_bind; [eapply returns_metric; [ival_eval ..] | intros a Ha].
  eapply returns_bind; [eapply returns_metric; [ival_eval ..] | intros p Hp].
  eapply returns_bind; [eapply returns_metric; [ival_eval ..] | intros r Hr].
  apply returns_ret. cbn [fraud_rate normal_rate].
  split; exact zero_rate.
Qed.

Lemma get_stats_no_transactions_witness :
  (total_transactions init <= 0)%Z /\
  returns (get_stats init)
    (fun s => fraud_rate s = of_int 0 /\ normal_rate s = of_int 0).
Proof.
  assert (H : (total_transactions init <= 0)%Z) by (cbn; lia).
  split; [exact H | exact (get_stats_no_transactions init H)].
Defined.


Section Endpoints.
Context {case_map : CaseMap}.

(** What the two fields [prediction] and [is_anomaly] of a result can be:
    an anomalous transaction is always flagged. *)
Lemma prediction_cases self transaction :
  let r := snd (predict self transaction) in
  prediction r = 1%Z \/ prediction r = 0%Z /\ is_anomaly r = 0%Z.
Proof.
  intros r. subst r. rewrite prediction_eq, is_anomaly_eq.
  unfold is_fraud.
  destruct (detect_anomalies transaction);
    [rewrite orb_true_r; now left|].
  destruct (fgt (calculate_risk_score transaction) (dec 6 1));
    [now left | now right].
Qed.

(** X8.  [analyze_transaction] answers every request: the result of
    [predict] on the five fields, the time of the clock, and a
    recommendation that is [BLOCK] when the prediction is [1] and [APPROVE]
    otherwise.  The [REVIEW] branch is never taken, since an anomalous
    transaction has prediction [1]. *)
Theorem analyze_transaction_recommends
    (fraud_detector : Detector) (transaction : TransactionModel) (w : world) :
  let p := predict fraud_detector (dict_of transaction) in
  exists response,
    analyze_transaction fraud_detector transaction w
    = Ok ((fst p, response), w) /\
    status response = "success" /\
    Api.transaction response = dict_of transaction /\
    analysis response = snd p /\
    timestamp response = clock w /\
    recommendation response
    = (if (prediction (snd p) =? 1)%Z then "BLOCK - High fraud risk detected"
       else "APPROVE - Transaction appears normal") /\
    recommendation response
    <> "REVIEW - Transaction shows anomalous patterns".
Proof.
  intros p.
  pose proof (prediction_cases fraud_detector (dict_of transaction)) as C.
  cbv zeta in C.
  change (predict fraud_detector (dict_of transaction)) with p in C.
  unfold analyze_transaction.
  change (predict fraud_detector (dict_of transaction)) with p.
  clearbody p. destruct p as [d r]. cbn [fst snd] in C |- *.
  eexists. split; [reflexivity|].
  cbn [status Api.transaction analysis timestamp recommendation].
  repeat (split; [reflexivity|]).
  destruct C as [C | [C1 C2]].
  - rewrite C. cbn. split; [reflexivity | discriminate].
  - rewrite C1, C2. cbn. split; [reflexivity | discriminate].
Qed.

(** X9.  One turn of the loop of [websocket_endpoint] raises nothing and
    draws from [random] only.  It sleeps between one and three seconds;
    the amount of the sample transaction lies in [[5, 3000]] and has two
    decimals; the message carries the result of [predict] on the sample,
    with [BLOCK]/[high] when the prediction is [1] and [APPROVE]/[low]
    otherwise, never [REVIEW]/[medium]. *)
Theorem websocket_turn_alerts (fraud_detector : Detector) :
  returns (websocket_turn fraud_detector)
    (fun out =>
       let d := fst out in
       let delay := fst (snd out) in
       let m := snd (snd out) in
       between 1 3 delay /\
       (exists a,
          Scorer.amount (msg_transaction m) = Some a /\
          between 5 3000 a /\ exists cents : Z, a = dec cents 2) /\
       d = fst (predict fraud_detector (msg_transaction m)) /\
       msg_analysis m = snd (predict fraud_detector (msg_transaction m)) /\
       (prediction (msg_analysis m) = 1%Z /\
        msg_recommendation m = "BLOCK" /\ alert_level m = "high"
        \/
        prediction (msg_analysis m) = 0%Z /\
        is_anomaly (msg_analysis m) = 0%Z /\
        msg_recommendation m = "APPROVE" /\ alert_level m = "low")).
Proof.
  unfold websocket_turn.
  eapply returns_bind;
    [eapply returns_uniform; [ival | ival | ival_eval ..] | intros delay Hd].
  eapply returns_bind;
    [eapply returns_uniform; [ival | ival | ival_eval ..] | intros a Ha].
  eapply returns_bind; [apply returns_choice; discriminate | intros m _].
  eapply returns_bind; [apply returns_choice; discriminate | intros l _].
  eapply returns_bind; [apply returns_choice; discriminate | intros t _].
  eapply returns_bind; [apply returns_choice; discriminate | intros c _].
  assert (A : between 5 3000 (py_round a 2) /\
              exists cents : Z, py_round a 2 = dec cents 2).
  { split.
    - unfold between.
      eapply inside_within;
        [eapply inside_round; [exact Ha | ival_eval] | ival_eval].
    - destruct (inside_finite _ _ Ha) as [v ->]. eexists.
      apply py_round_dec. unfold NDIGITS_MAX. lia. }
  assert (D : between 1 3 delay).
  { unfold between. eapply inside_within; [exact Hd | ival_eval]. }
  set (sample_txn := Scorer.mkTransaction (Some (py_round a 2)) (Some m)
                       (Some l) (Some t) (Some c)).
  pose proof (prediction_cases fraud_detector sample_txn) as C.
  cbv zeta in C.
  assert (T : forall rec al,
            returns
              (now <- datetime_now ;;
               ret (fst (predict fraud_detector sample_txn),
                    (delay,
                     mkMessage sample_txn
                       (snd (predict fraud_detector sample_txn))
                       rec al now)))
              (fun out =>
                 fst out = fst (predict fraud_detector sample_txn) /\
                 fst (snd out) = delay /\
                 msg_transaction (snd (snd out)) = sample_txn /\
                 msg_analysis (snd (snd out))
                 = snd (predict fraud_detector sample_txn) /\
                 msg_recommendation (snd (snd out)) = rec /\
                 alert_level (snd (snd out)) = al)).
  { intros rec al w. eexists _, w.
    split; [reflexivity|]. split; [apply only_mt_refl|].
    repeat split. }
  remember (predict fraud_detector sample_txn) as p eqn:E in *.
  destruct p as [d r]. cbn [fst snd] in C, T. cbv beta iota.
  destruct C as [C | [C1 C2]].
  - rewrite C. change (1 =? 1)%Z with true. cbv beta iota.
    eapply returns_weaken; [apply T|].
    intros [d' [delay' m']]. cbn [fst snd].
    intros (-> & -> & E1 & E2 & E3 & E4). cbv zeta. cbn [fst snd].
    rewrite E1, E2, E3, E4, <- E. cbn [Scorer.amount sample_txn fst snd].
    split; [exact D|]. split; [exists (py_round a 2); tauto|].
    split; [reflexivity|]. split; [reflexivity|]. left. auto.
  - rewrite C1, C2. change (0 =? 1)%Z with false. cbv beta iota.
    eapply returns_weaken; [apply T|].
    intros [d' [delay' m']]. cbn [fst snd].
    intros (-> & -> & E1 & E2 & E3 & E4). cbv zeta. cbn [fst snd].
    rewrite E1, E2, E3, E4, <- E. cbn [Scorer.amount sample_txn fst snd].
    split; [exact D|]. split; [exists (py_round a 2); tauto|].
    split; [reflexivity|]. split; [reflexivity|]. right. auto.
Qed.

(** X19.  After any sequence of predictions on a fresh scorer, the
    [/stats] endpoint answers: the total is the number of predictions, the
    fraud count the number of flagged ones, the two counts add up to the
    total, the fraud rate lies in [[0, 100]], the three metrics in their
    ranges, and the status is ["active"]. *)
Theorem get_model_stats_after_predictions (transactions : list Transaction) :
  returns (get_model_stats (predict_all init transactions))
    (fun r =>
       stats_total r = Z.of_nat (List.length transactions) /\
       stats_fraud r = Z.of_nat (List.length (filter flagged transactions)) /\
       (stats_fraud r + stats_normal r)%Z = stats_total r /\
       between 0 100 (stats_fraud_rate r) /\
       between 85 95 (metrics_accuracy r) /\
       between 80 90 (metrics_precision r) /\
       between 75 85 (metrics_recall r) /\
       model_status r = "active" /\
       detection_method r = "Rule-based Analysis").
Proof.
  destruct (predict_all_from init transactions) as (T & F & N).
  cbv zeta in T, F, N.
  cbn [init total_transactions fraud_detected normal_transactions] in T, F, N.
  pose proof (filter_length_le flagged transactions) as L1.
  pose proof (filter_split_length flagged transactions) as L2.
  revert T F N L1 L2.
  generalize (List.length (filter flagged transactions)).
  generalize (List.length
                (filter (fun t => negb (flagged t)) transactions)).
  generalize (List.length transactions).
  generalize (predict_all init transactions).
  intros self n nn nf T F N L1 L2.
  unfold get_model_stats.
  eapply returns_bind.
  - apply get_stats_returns.
  - intros s (S1 & S2 & S3 & Ef & _ & Ma & Mp & Mr).
    assert (Rf : between 0 100 (rate_of self (fraud_detected self)))
      by (apply rate_of_between; lia).
    apply returns_ret.
    cbn [stats_total stats_fraud stats_normal stats_fraud_rate
         metrics_accuracy metrics_precision metrics_recall model_status
         detection_method].
    rewrite S1, S2, S3, T, F, N.
    split; [lia|]. split; [lia|]. split; [lia|].
    split; [rewrite Ef; exact Rf|]. split; [exact Ma|]. split; [exact Mp|].
    split; [exact Mr|]. split; reflexivity.
Qed.

End Endpoints.

End ApiFacts.

(* ================================================================= *)
(** ** The generator: fields, batches, sessions and peak hours *)

Module SchemaFacts.
Import Generator PyFloatFacts ScorerFacts Effects GeneratorFacts.

(** Two properties of the result of one computation. *)
Lemma returns_and {A : Type} (m : M A) (P Q : A -> Prop) :
  returns m P -> returns m Q -> returns m (fun a => P a /\ Q a).
Proof.
  intros Hp Hq w.
  destruct (Hp w) as (a & w1 & E1 & F1 & Pa).
  destruct (Hq w) as (a' & w2 & E2 & _ & Qa).
  rewrite E1 in E2. injection E2 as <- <-.
  exists a, w1. auto.
Qed.

Lemma uniform_total a b : returns (uniform a b) (fun _ => True).
Proof.
  unfold uniform. eapply returns_bind; [apply returns_random|].
  intros u _. now apply returns_ret.
Qed.

(** Membership in a list of strings that is included in another. *)
Definition inclb (small big : list string) : bool :=
  forallb (fun s => existsb (String.eqb s) big) small.

Lemma inclb_In small big x : inclb small big = true -> In x small -> In x big.
Proof.
  unfold inclb. rewrite forallb_forall. intros H Hx.
  exact (existsb_In_string _ _ (H x Hx)).
Qed.

(** The categorical fields of a transaction, each within a list. *)
Record Signature : Type := mkSignature {
  merchants : list string;
  places : list string;
  periods : list string;
  cards : list string
}.

Definition fits (s : Signature) (t : Transaction) : Prop :=
  In (merchant_type t) (merchants s) /\ In (location t) (places s) /\
  In (time_of_day t) (periods s) /\ In (card_type t) (cards s).

(** The lists of the generator itself. *)
Definition schema : Signature :=
  mkSignature merchant_types locations time_periods card_types.

Definition fitsb (small big : Signature) : bool :=
  inclb (merchants small) (merchants big) && inclb (places small) (places big)
  && inclb (periods small) (periods big) && inclb (cards small) (cards big).

Lemma fits_incl small big t : fitsb small big = true -> fits small t -> fits big t.
Proof.
  unfold fitsb. intros H (Hm & Hl & Ht & Hc).
  apply andb_prop in H as [H H4]. apply andb_prop in H as [H H3].
  apply andb_prop in H as [H1 H2].
  repeat split; eapply inclb_In; eassumption.
Qed.

(** Neither of the two keys a session adds. *)
Definition unstamped (t : Transaction) : Prop :=
  timestamp t = None /\ session_id t = None.

(** The literal lists each archetype draws its fields from. *)
Definition archetype_signatures : dict string Signature :=
  [ ("high_amount_unknown_merchant",
     mkSignature ["unknown"] ["Unknown Location"; "Foreign Country"]
                 ["night"] ["credit"; "prepaid"]);
    ("multiple_small_amounts",
     mkSignature ["online"; "unknown"] ["Unknown Location"; "Foreign Country"]
                 ["night"; "evening"] ["prepaid"]);
    ("foreign_location",
     mkSignature ["online"; "travel"; "unknown"] ["Foreign Country"]
                 ["night"; "morning"] ["credit"; "prepaid"]);
    ("unusual_time",
     mkSignature ["atm"; "online"; "unknown"]
                 ["Unknown Location"; "New York, NY"; "Los Angeles, CA";
                  "Chicago, IL"; "Houston, TX"; "Phoenix, AZ";
                  "Philadelphia, PA"; "San Antonio, TX"; "San Diego, CA";
                  "Dallas, TX"; "San Jose, CA"]
                 ["night"] ["debit"; "credit"; "prepaid"]);
    ("prepaid_card_pattern",
     mkSignature ["online"; "atm"; "unknown"] locations time_periods
                 ["prepaid"]) ].

Definition fraud_fields (s : Signature) (t : Transaction) : Prop :=
  fits s t /\ user_profile t = "fraudulent" /\ unstamped t.

Ltac fields :=
  apply returns_ret; unfold fraud_fields, fits, unstamped;
  cbn [merchant_type location time_of_day card_type user_profile timestamp
       session_id merchants places periods cards];
  repeat split; first [assumption | now left].

Lemma high_amount_unknown_merchant_fields :
  returns high_amount_unknown_merchant
    (fraud_fields (mkSignature ["unknown"]
                     ["Unknown Location"; "Foreign Country"]
                     ["night"] ["credit"; "prepaid"])).
Proof.
  unfold high_amount_unknown_merchant.
  eapply returns_bind; [apply uniform_total | intros a _].
  do 2 step_choice. fields.
Qed.

Lemma multiple_small_amounts_fields :
  returns multiple_small_amounts
    (fraud_fields (mkSignature ["online"; "unknown"]
                     ["Unknown Location"; "Foreign Country"]
                     ["night"; "evening"] ["prepaid"])).
Proof.
  unfold multiple_small_amounts.
  eapply returns_bind; [apply uniform_total | intros a _].
  do 3 step_choice. fields.
Qed.

Lemma foreign_location_fields :
  returns foreign_location
    (fraud_fields (mkSignature ["online"; "travel"; "unknown"]
                     ["Foreign Country"]
                     ["night"; "morning"] ["credit"; "prepaid"])).
Proof.
  unfold foreign_location.
  eapply returns_bind; [apply uniform_total | intros a _].
  do 3 step_choice. fields.
Qed.

Lemma unusual_time_fields :
  returns unusual_time
    (fraud_fields (mkSignature ["atm"; "online"; "unknown"]
                 ["Unknown Location"; "New York, NY"; "Los Angeles, CA";
                  "Chicago, IL"; "Houston, TX"; "Phoenix, AZ";
                  "Philadelphia, PA"; "San Antonio, TX"; "San Diego, CA";
                  "Dallas, TX"; "San Jose, CA"]
                 ["night"] ["debit"; "credit"; "prepaid"])).
Proof.
  unfold unusual_time.
  eapply returns_bind; [apply uniform_total | intros a _].
  do 3 step_choice. fields.
Qed.

Lemma prepaid_card_pattern_fields :
  returns prepaid_card_pattern
    (fraud_fields (mkSignature ["online"; "atm"; "unknown"] locations
                     time_periods ["prepaid"])).
Proof.
  unfold prepaid_card_pattern.
  eapply returns_bind; [apply uniform_total | intros a _].
  do 3 step_choice. fields.
Qed.

Lemma Some_inv {A : Type} (a b : A) : Some a = Some b -> a = b.
Proof. now intros [= ->]. Qed.

Lemma fraud_transaction_of_fields pattern s :
  lookup String.eqb archetype_signatures pattern = Some s ->
  returns (fraud_transaction_of pattern) (fraud_fields s).
Proof.
  unfold archetype_signatures, fraud_transaction_of. cbn [lookup].
  destruct (pattern =? "high_amount_unknown_merchant").
  { intros E. apply Some_inv in E as <-.
    exact high_amount_unknown_merchant_fields. }
  destruct (pattern =? "multiple_small_amounts").
  { intros E. apply Some_inv in E as <-.
    exact multiple_small_amounts_fields. }
  destruct (pattern =? "foreign_location").
  { intros E. apply Some_inv in E as <-. exact foreign_location_fields. }
  destruct (pattern =? "unusual_time").
  { intros E. apply Some_inv in E as <-. exact unusual_time_fields. }
  destruct (pattern =? "prepaid_card_pattern").
  { intros E. apply Some_inv in E as <-. exact prepaid_card_pattern_fields. }
  discriminate.
Qed.

(** The merchants a fraudulent transaction can have. *)
Definition fraud_merchants : list string :=
  ["unknown"; "online"; "travel"; "atm"].

Lemma archetypes_in_schema s :
  In s (map snd archetype_signatures) ->
  fitsb s schema = true /\ inclb (merchants s) fraud_merchants = true.
Proof.
  intros H.
  assert (A : forallb (fun s => fitsb s schema
                                && inclb (merchants s) fraud_merchants)
                      (map snd archetype_signatures) = true)
    by (vm_compute; reflexivity).
  rewrite forallb_forall in A. apply andb_prop. exact (A s H).
Qed.

Lemma lookup_In_snd {V : Type} (d : dict string V) k v :
  lookup String.eqb d k = Some v -> In v (map snd d).
Proof. intros H. exact (in_map snd _ _ (lookup_In d k v H)). Qed.

(** What every transaction of [generate_transaction] satisfies. *)
Definition schema_ok (t : Transaction) : Prop :=
  fits schema t /\ In (user_profile t) ["normal"; "fraudulent"] /\
  unstamped t.

Lemma _generate_fraud_transaction_fields :
  returns _generate_fraud_transaction
    (fun t => exists pattern s,
       In pattern fraud_patterns /\
       lookup String.eqb archetype_signatures pattern = Some s /\
       fraud_fields s t).
Proof.
  unfold _generate_fraud_transaction.
  eapply returns_bind; [apply returns_choice; discriminate|].
  intros pattern Hp.
  destruct (In_lookup archetype_signatures pattern Hp) as [s E].
  eapply returns_weaken; [exact (fraud_transaction_of_fields pattern s E)|].
  intros t Ht. exists pattern, s. auto.
Qed.

Lemma hours_range h : In h (map Z.of_nat (seq 0 24)) <-> (0 <= h < 24)%Z.
Proof.
  rewrite in_map_iff. split.
  - intros (n & <- & Hn). apply in_seq in Hn. lia.
  - intros H. exists (Z.to_nat h). split; [lia|]. apply in_seq. lia.
Qed.

Lemma _hour_to_period_In hour : In (_hour_to_period hour) time_periods.
Proof.
  unfold _hour_to_period, time_periods.
  destruct ((6 <=? hour)%Z && (hour <? 12)%Z); [now left|].
  destruct ((12 <=? hour)%Z && (hour <? 18)%Z); [right; now left|].
  destruct ((18 <=? hour)%Z && (hour <? 22)%Z);
    [right; right; now left | right; right; right; now left].
Qed.

Lemma _generate_realistic_hour_In :
  returns _generate_realistic_hour (fun hour => (0 <= hour < 24)%Z).
Proof.
  unfold _generate_realistic_hour. cbv zeta.
  eapply returns_bind; [apply hourly_weights_read|].
  intros ws ->.
  eapply returns_weaken; [apply returns_choices; ival_eval|].
  intros h Hh. apply hours_range. exact Hh.
Qed.

Lemma _generate_normal_transaction_fields profile :
  profile_ok profile = true ->
  returns (_generate_normal_transaction profile)
    (fun t => In (merchant_type t) (preferred_merchants profile) /\
              schema_ok t /\ user_profile t = "normal").
Proof.
  unfold profile_ok. intros H.
  apply andb_prop in H as [H H3]. apply andb_prop in H as [H1 H2].
  assert (Hne : preferred_merchants profile <> []).
  { intros E. rewrite E in H1. discriminate H1. }
  rewrite forallb_forall in H2.
  unfold _generate_normal_transaction.
  eapply returns_bind; [apply returns_choice; exact Hne|].
  intros m Hm.
  pose proof (existsb_In_string _ _ (H2 m Hm)) as Hin.
  destruct (In_lookup merchant_amount_ranges m Hin) as [[mn mx] E].
  eapply returns_bind; [apply returns_getitem; exact E|].
  intros r <-. cbv beta iota.
  eapply returns_bind; [apply uniform_total | intros base _].
  eapply returns_bind; [apply uniform_total | intros jitter _].
  cbv zeta.
  eapply returns_bind; [apply _generate_realistic_hour_In|]. intros hour _.
  eapply returns_bind; [apply location_choice_ok|]. intros l Hl.
  eapply returns_bind; [apply card_choice_ok|]. intros c Hc.
  apply returns_ret.
  unfold schema_ok, fits, unstamped.
  cbn [merchant_type location time_of_day card_type user_profile timestamp
       session_id merchants places periods cards schema].
  split; [exact Hm|]. split; [| reflexivity].
  split; [| split; [now left | split; reflexivity]].
  split; [| split; [exact Hl | split; [apply _hour_to_period_In | exact Hc]]].
  eapply inclb_In; [| exact Hin]. vm_compute. reflexivity.
Qed.

Lemma fraud_fields_schema s t :
  In s (map snd archetype_signatures) -> fraud_fields s t ->
  schema_ok t /\ In (merchant_type t) fraud_merchants.
Proof.
  intros Hs (F & P & U).
  destruct (archetypes_in_schema s Hs) as [A B].
  split.
  - split; [exact (fits_incl _ _ _ A F)|].
    split; [rewrite P; right; now left | exact U].
  - destruct F as (Hm & _). exact (inclb_In _ _ _ B Hm).
Qed.

Lemma generate_transaction_fields_with name :
  In name (map fst user_profiles) ->
  returns (bind (getitem user_profiles name)
             (fun profile =>
                bind random (fun u =>
                  if flt u (fraud_probability profile)
                  then _generate_fraud_transaction
                  else _generate_normal_transaction profile)))
          schema_ok.
Proof.
  intros Hn. destruct (In_lookup user_profiles name Hn) as [profile E].
  eapply returns_bind; [apply returns_getitem; exact E|].
  intros p <-.
  eapply returns_bind; [apply returns_random|]. intros u _.
  destruct (flt u (fraud_probability profile)).
  - eapply returns_weaken; [apply _generate_fraud_transaction_fields|].
    intros t (pattern & s & _ & L & H).
    exact (proj1 (fraud_fields_schema s t (lookup_In_snd _ _ _ L) H)).
  - eapply returns_weaken;
      [apply _generate_normal_transaction_fields;
       exact (user_profiles_ok name profile E)|].
    intros t (_ & H & _). exact H.
Qed.

Lemma generate_transaction_fields (user_profile : option string) :
  match user_profile with
  | Some name => In name (map fst user_profiles)
  | None => True
  end ->
  returns (generate_transaction user_profile) schema_ok.
Proof.
  unfold generate_transaction. destruct user_profile as [name |]; intros H.
  - eapply (returns_bind _ _ (fun n => In n (map fst user_profiles)));
      [apply returns_ret; exact H|].
    intros n Hn. exact (generate_transaction_fields_with n Hn).
  - eapply returns_bind; [apply profile_choice_ok|].
    intros n Hn. exact (generate_transaction_fields_with n Hn).
Qed.

(** A generated transaction: its fields and its amount. *)
Definition well_formed (t : Transaction) : Prop :=
  schema_ok t /\ amount_ok (amount t).

Lemma generate_transaction_well_formed (user_profile : option string) :
  match user_profile with
  | Some name => In name (map fst user_profiles)
  | None => True
  end ->
  returns (generate_transaction user_profile) well_formed.
Proof.
  intros H. apply returns_and.
  - exact (generate_transaction_fields user_profile H).
  - exact (generate_transaction_ok user_profile H).
Qed.

(** *** Batches *)

Lemma batch_loop_well_formed count transactions :
  Forall well_formed transactions ->
  returns (batch_loop count transactions)
          (fun l => Forall well_formed l /\
                    List.length l = (List.length transactions + count)%nat).
Proof.
  revert transactions.
  induction count as [| count IH]; intros transactions H; cbn [batch_loop].
  - apply returns_ret. split; [exact H | lia].
  - eapply returns_bind; [apply (generate_transaction_well_formed None); exact I|].
    intros t Ht.
    eapply returns_weaken.
    + apply IH. apply Forall_app. split; [exact H | now constructor].
    + intros l [Hl Hn]. split; [exact Hl|].
      rewrite Hn, length_app. cbn [List.length]. lia.
Qed.

(** *** Sessions *)

(** Time stamps that follow one another from [base_time], each between 5
    and 120 minutes after the one before. *)
Fixpoint chained (base_time : Z) (l : list Transaction) : Prop :=
  match l with
  | [] => True
  | t :: l' =>
      exists time,
        timestamp t = Some time /\
        (base_time + 5 * minute <= time <= base_time + 120 * minute)%Z /\
        chained time l'
  end.

(** The fields of a transaction of a session. *)
Definition session_fields (t : Transaction) : Prop :=
  fits schema t /\ In (user_profile t) ["normal"; "fraudulent"].

Lemma session_loop_times name :
  In name (map fst user_profiles) ->
  forall n base_time transactions w,
  exists new w',
    session_loop n name base_time transactions w
    = Ok ((transactions ++ new)%list, w') /\
    List.length new = n /\
    numpy w' = numpy w /\ clock w' = clock w /\
    chained base_time new /\ Forall session_fields new.
Proof.
  intros Hname. induction n as [| n IH]; intros base_time transactions w.
  - exists [], w. cbn [session_loop]. unfold ret. rewrite app_nil_r.
    repeat split. constructor.
  - destruct (returns_randint 5 120 ltac:(lia) w)
      as (minutes & w1 & E1 & (_ & N1 & C1) & Hm).
    destruct (generate_transaction_fields (Some name) Hname w1)
      as (t & w2 & E2 & (_ & N2 & C2) & (Hf & Hp & _)).
    set (time := (base_time + minutes * minute)%Z).
    set (w3 := mkWorld (mt w2) (advance (urandom w2)) (numpy w2) (clock w2)).
    set (t' := stamped t time (uuid_str (uuid4_int (nth_draw (urandom w2) 0)))).
    destruct (IH time (transactions ++ [t'])%list w3)
      as (new & w' & E3 & L3 & N3 & C3 & T3 & F3).
    exists (t' :: new), w'.
    split.
    { cbn [session_loop]. unfold bind at 1. rewrite E1.
      cbv zeta. fold time. unfold bind at 1. rewrite E2.
      unfold bind at 1. rewrite uuid4_eq.
      fold w3. rewrite <- app_assoc in E3. exact E3. }
    split; [cbn [List.length]; lia|].
    split; [rewrite N3; subst w3; cbn [numpy]; congruence|].
    split; [rewrite C3; subst w3; cbn [clock]; congruence|].
    split.
    + cbn [chained]. exists time. split; [reflexivity|]. split; [| exact T3].
      subst time. cbv beta in Hm. unfold minute. lia.
    + constructor; [| exact F3]. split; [exact Hf | exact Hp].
Qed.

Lemma generate_user_session_default name profile w :
  lookup String.eqb user_profiles name = Some profile ->
  generate_user_session name None w
  = session_loop (Z.to_nat (Z.max 1 (Z.abs (nth_draw (numpy w) 0)))) name
      (clock w) []
      (mkWorld (mt w) (urandom w) (advance (numpy w)) (clock w)).
Proof.
  intros Ep. unfold generate_user_session.
  unfold bind at 1. unfold getitem. rewrite Ep. reflexivity.
Qed.

(** X10.  Each fraud archetype draws the merchant, location, time of day
    and card of its transaction from its own literal lists, tags it
    ["fraudulent"] and leaves it without time stamp or session id; the
    lists lie within those of the generator, and no archetype has a
    merchant other than [unknown], [online], [travel] or [atm]. *)
Theorem fraud_archetype_fields :
  (forall pattern s,
     lookup String.eqb archetype_signatures pattern = Some s ->
     returns (fraud_transaction_of pattern)
       (fun t => fits s t /\ fits schema t /\
                 user_profile t = "fraudulent" /\ unstamped t)) /\
  returns _generate_fraud_transaction
    (fun t => In (merchant_type t) fraud_merchants /\ fits schema t).
Proof.
  split.
  - intros pattern s E.
    eapply returns_weaken; [exact (fraud_transaction_of_fields pattern s E)|].
    intros t H.
    destruct (fraud_fields_schema s t (lookup_In_snd _ _ _ E) H)
      as [(S & _) _].
    destruct H as (F & P & U). auto.
  - eapply returns_weaken; [apply _generate_fraud_transaction_fields|].
    intros t (pattern & s & _ & L & H).
    destruct (fraud_fields_schema s t (lookup_In_snd _ _ _ L) H)
      as [(S & _) M].
    auto.
Qed.

(** The first of the configured profiles. *)
Definition normal_user : Profile :=
  mkProfile 3 ["grocery"; "gas"; "restaurant"] 75 (dec 1 3).

(** X11.  For each configured profile the normal path raises nothing; its
    transaction is tagged ["normal"], its merchant is one of the profile's
    preferred merchants, and its location, time of day and card are taken
    from the lists of the generator. *)
Theorem normal_transaction_fields (name : string) (profile : Profile) :
  lookup String.eqb user_profiles name = Some profile ->
  returns (_generate_normal_transaction profile)
    (fun t => In (merchant_type t) (preferred_merchants profile) /\
              fits schema t /\ user_profile t = "normal" /\ unstamped t).
Proof.
  intros E.
  eapply returns_weaken;
    [exact (_generate_normal_transaction_fields profile
              (user_profiles_ok name profile E))|].
  intros t (Hm & (F & _ & U) & P). auto.
Qed.

Lemma normal_transaction_fields_witness :
  lookup String.eqb user_profiles "normal_user" = Some normal_user /\
  returns (_generate_normal_transaction normal_user)
    (fun t => In (merchant_type t) (preferred_merchants normal_user) /\
              fits schema t /\ user_profile t = "normal" /\ unstamped t).
Proof.
  assert (E : lookup String.eqb user_profiles "normal_user" = Some normal_user)
    by reflexivity.
  split; [exact E|].
  exact (normal_transaction_fields "normal_user" normal_user E).
Defined.

(** X12.  [generate_transaction], with no profile or with a configured
    one, raises nothing and returns a transaction whose merchant, location,
    time of day and card are in the lists of the generator, whose profile
    tag is ["normal"] or ["fraudulent"], and which has neither time stamp
    nor session id. *)
Theorem generate_transaction_schema :
  returns (generate_transaction None) schema_ok /\
  (forall name,
     In name ["normal_user"; "heavy_user"; "business_user"; "suspicious_user"] ->
     returns (generate_transaction (Some name)) schema_ok).
Proof.
  split.
  - exact (generate_transaction_fields None I).
  - intros name H. exact (generate_transaction_fields (Some name) H).
Qed.

(** X13.  [_generate_realistic_hour] finds a weight for each of the 24
    hours, so it raises nothing, and returns an hour of [[0, 23]]. *)
Theorem realistic_hour_range :
  returns _generate_realistic_hour (fun hour => (0 <= hour <= 23)%Z).
Proof.
  eapply returns_weaken; [apply _generate_realistic_hour_In|].
  intros h H. cbv beta in H. lia.
Qed.

(** X14.  [_hour_to_period] splits the integers into the four periods of
    the generator: morning is [[6, 12)], afternoon [[12, 18)], evening
    [[18, 22)], and night every other hour, those outside [[0, 23]]
    included. *)
Theorem hour_to_period_partition (hour : Z) :
  In (_hour_to_period hour) time_periods /\
  (_hour_to_period hour = "morning" <-> (6 <= hour < 12)%Z) /\
  (_hour_to_period hour = "afternoon" <-> (12 <= hour < 18)%Z) /\
  (_hour_to_period hour = "evening" <-> (18 <= hour < 22)%Z) /\
  (_hour_to_period hour = "night" <-> (hour < 6 \/ 22 <= hour)%Z).
Proof.
  split; [apply _hour_to_period_In|].
  unfold _hour_to_period.
  destruct (Z.leb_spec 6 hour), (Z.ltb_spec hour 12), (Z.leb_spec 12 hour),
    (Z.ltb_spec hour 18), (Z.leb_spec 18 hour), (Z.ltb_spec hour 22);
    cbn [andb]; try lia;
    repeat split; intros; try lia; try discriminate; reflexivity.
Qed.

(** X15.  [generate_batch_transactions(count)] raises nothing and returns
    exactly [count] transactions, none for a [count] that is not positive;
    each is well formed: fields in the lists of the generator, an amount
    of at least [0.01] with two decimals, no time stamp and no session
    id. *)
Theorem generate_batch_transactions_count (count : Z) :
  returns (generate_batch_transactions count)
    (fun l => List.length l = Z.to_nat count /\ Forall well_formed l).
Proof.
  unfold generate_batch_transactions.
  eapply returns_weaken;
    [exact (batch_loop_well_formed (Z.to_nat count) [] (Forall_nil _))|].
  intros l [F L]. cbn [List.length] in L. split; [lia | exact F].
Qed.

(** X16.  In a session of a configured profile the time stamps follow one
    another: the first is 5 to 120 minutes after the clock, each next one
    5 to 120 minutes after the one before; the clock itself is read once.
    Every transaction keeps fields within the lists of the generator. *)
Theorem session_timestamps_chained
    (name : string) (session_length : Z) (w : world) :
  In name (map fst user_profiles) ->
  exists txs w',
    generate_user_session name (Some session_length) w = Ok (txs, w') /\
    List.length txs = Z.to_nat session_length /\
    chained (clock w) txs /\ Forall session_fields txs /\
    clock w' = clock w.
Proof.
  intros Hin.
  destruct (In_lookup user_profiles name Hin) as [profile Ep].
  destruct (session_loop_times name Hin (Z.to_nat session_length)
              (clock w) [] w) as (new & w1 & E1 & L1 & _ & C1 & T1 & F1).
  exists new, w1.
  rewrite (generate_user_session_eq name profile _ w Ep).
  auto.
Qed.

Lemma session_timestamps_chained_witness :
  In "heavy_user" (map fst user_profiles) /\
  exists txs w',
    generate_user_session "heavy_user" (Some 3%Z) example_world
    = Ok (txs, w') /\
    List.length txs = Z.to_nat 3 /\
    chained (clock example_world) txs /\ Forall session_fields txs /\
    clock w' = clock example_world.
Proof.
  assert (H : In "heavy_user" (map fst user_profiles)) by (right; now left).
  split; [exact H|].
  exact (session_timestamps_chained "heavy_user" 3 example_world H).
Defined.

(** X17.  Without a length, a session of a configured profile has at
    least one transaction: the length is the Poisson draw, raised to one
    when the draw is zero.  With a length that is not positive the session
    is empty. *)
Theorem session_length_default (name : string) (w : world) :
  In name (map fst user_profiles) ->
  (exists txs w',
     generate_user_session name None w = Ok (txs, w') /\
     (1 <= List.length txs)%nat /\
     Z.of_nat (List.length txs) = Z.max 1 (Z.abs (nth_draw (numpy w) 0)) /\
     pos (numpy w') = S (pos (numpy w))) /\
  (forall session_length,
     (session_length <= 0)%Z ->
     generate_user_session name (Some session_length) w = Ok ([], w)).
Proof.
  intros Hin.
  destruct (In_lookup user_profiles name Hin) as [profile Ep].
  split.
  - set (w0 := mkWorld (mt w) (urandom w) (advance (numpy w)) (clock w)).
    destruct (session_loop_times name Hin
                (Z.to_nat (Z.max 1 (Z.abs (nth_draw (numpy w) 0))))
                (clock w) [] w0) as (new & w1 & E1 & L1 & N1 & _).
    exists new, w1.
    rewrite (generate_user_session_default name profile w Ep).
    fold w0. split; [exact E1|].
    split; [lia | split; [lia|]].
    rewrite N1. reflexivity.
  - intros session_length H.
    rewrite (generate_user_session_eq name profile _ w Ep).
    replace (Z.to_nat session_length) with 0%nat by lia.
    reflexivity.
Qed.

Lemma session_length_default_witness :
  In "business_user" (map fst user_profiles) /\
  ((exists txs w',
      generate_user_session "business_user" None example_world
      = Ok (txs, w') /\
      (1 <= List.length txs)%nat /\
      Z.of_nat (List.length txs)
      = Z.max 1 (Z.abs (nth_draw (numpy example_world) 0)) /\
      pos (numpy w') = S (pos (numpy example_world))) /\
   (forall session_length,
      (session_length <= 0)%Z ->
      generate_user_session "business_user" (Some session_length)
        example_world
      = Ok ([], example_world))).
Proof.
  assert (H : In "business_user" (map fst user_profiles))
    by (right; right; now left).
  split; [exact H|].
  exact (session_length_default "business_user" example_world H).
Defined.

End SchemaFacts.

(* ================================================================= *)
(** ** Peak hours ([simulate_peak_hours]) *)

Module PeakFacts.
Import Generator Peak PyFloatFacts ScorerFacts Effects GeneratorFacts.
Import SchemaFacts.

(** [int(100 * weight)] for each hour of the day.  The products
    [100 * 2.3] and [100 * 0.6] are not exact: the first is just below
    [230]. *)
Definition peak_volumes : list Z :=
  [50; 20; 10; 10; 10; 30; 80; 120; 150; 180; 200; 220; 250; 229; 200; 180;
   190; 210; 229; 200; 150; 120; 80; 60]%Z.

(** The volume the simulation computes for an hour, when the product is
    finite. *)
Definition volume_at (h : Z) : option Z :=
  match fmul (of_int 100) (dict_get_int hourly_weights h (dec 10 1)) with
  | Finite m => Some (Z.quot m scale)
  | _ => None
  end.

Definition volume_checked (h : Z) : bool :=
  match volume_at h, lookup Z.eqb hourly_weights h with
  | Some v, Some f =>
      (v =? nth (Z.to_nat h) peak_volumes 0)%Z
      && (10 <=? v)%Z && (v <=? 250)%Z
      && feq f (dict_get_int hourly_weights h (dec 10 1))
  | _, _ => false
  end.

Lemma volume_table h :
  (0 <= h < 24)%Z -> volume_checked h = true.
Proof.
  intros H. apply hours_range in H.
  assert (A : forallb volume_checked (map Z.of_nat (seq 0 24)) = true)
    by (vm_compute; reflexivity).
  rewrite forallb_forall in A. exact (A h H).
Qed.

Lemma hour_of_range t : (0 <= hour_of t < 24)%Z.
Proof. unfold hour_of. apply Z.mod_pos_bound. reflexivity. Qed.

(** What the loop leaves in each transaction. *)
Definition peak_ok (factor : float) (t : PeakTransaction) : Prop :=
  peak_hour t = true /\ volume_multiplier t = factor /\
  well_formed (transaction t).

Lemma peak_loop_ok peak_volume current_hour transactions :
  Forall (peak_ok (dict_get_int hourly_weights current_hour (dec 10 1)))
         transactions ->
  returns (peak_loop peak_volume current_hour transactions)
    (fun l =>
       Forall (peak_ok (dict_get_int hourly_weights current_hour (dec 10 1)))
              l /\
       List.length l = (List.length transactions + peak_volume)%nat).
Proof.
  revert transactions.
  induction peak_volume as [| n IH]; intros transactions H; cbn [peak_loop].
  - apply returns_ret. split; [exact H | lia].
  - eapply returns_bind;
      [apply (generate_transaction_well_formed None); exact I|].
    intros t Ht. cbv zeta.
    eapply returns_weaken.
    + apply IH. apply Forall_app. split; [exact H|].
      constructor; [| constructor]. repeat split; exact Ht || apply Ht.
    + intros l [Hl Hn]. split; [exact Hl|].
      rewrite Hn, length_app. cbn [List.length]. lia.
Qed.

(** X18.  [simulate_peak_hours] raises nothing.  The hour is that of the
    clock; its weight is found in the table, so the default [1.0] is never
    used; the expected volume is [int(100 * weight)], between [10] and
    [250] ([229], not [230], at 13 and 18 o'clock); exactly that many
    transactions are generated, each well formed, marked as peak-hour and
    carrying the weight of the hour. *)
Theorem simulate_peak_hours_volume (w : world) :
  exists r w',
    simulate_peak_hours w = Ok (r, w') /\
    hour r = hour_of (clock w) /\
    (0 <= hour r <= 23)%Z /\
    lookup Z.eqb hourly_weights (hour r) = Some (peak_factor r) /\
    expected_volume r = nth (Z.to_nat (hour r)) peak_volumes 0%Z /\
    (10 <= expected_volume r <= 250)%Z /\
    Z.of_nat (List.length (transactions r)) = expected_volume r /\
    Forall (peak_ok (peak_factor r)) (transactions r).
Proof.
  pose proof (hour_of_range (clock w)) as Hh.
  pose proof (volume_table _ Hh) as V.
  unfold volume_checked, volume_at in V.
  unfold simulate_peak_hours. unfold bind at 1. unfold datetime_now.
  cbv zeta.
  destruct (fmul (of_int 100)
              (dict_get_int hourly_weights (hour_of (clock w)) (dec 10 1)))
    as [m | |] eqn:Em; try discriminate V.
  destruct (lookup Z.eqb hourly_weights (hour_of (clock w)))
    as [f |] eqn:Ef; try discriminate V.
  apply andb_prop in V as [V V4]. apply andb_prop in V as [V V3].
  apply andb_prop in V as [V1 V2].
  apply Z.eqb_eq in V1. apply Z.leb_le in V2. apply Z.leb_le in V3.
  apply feq_eq in V4.
  unfold bind at 1. cbn [py_int]. unfold ret at 1.
  destruct (peak_loop_ok (Z.to_nat (Z.quot m scale)) (hour_of (clock w)) []
              (Forall_nil _) w) as (l & w' & El & _ & Fl & Ll).
  unfold bind at 1. rewrite El.
  eexists _, w'. split; [reflexivity|].
  cbn [hour expected_volume transactions peak_factor].
  split; [reflexivity|]. split; [lia|].
  split; [rewrite Ef, V4; reflexivity|].
  split; [exact V1|]. split; [lia|].
  split; [cbn [List.length] in Ll; lia | exact Fl].
Qed.

End PeakFacts.

(* ================================================================= *)
(** ** Merchant statistics and connections *)

Module StatisticsFacts.
Import Statistics Effects SchemaFacts.

Definition levels : list string := ["low"; "medium"; "high"].

Definition merchant_checked (s : MerchantStatistics) (m : string) : bool :=
  match lookup String.eqb (amount_ranges s) m,
        lookup String.eqb (risk_levels s) m with
  | Some (lo, hi), Some level =>
      (0 <? lo)%Z && (lo <? hi)%Z && existsb (String.eqb level) levels
  | _, _ => false
  end.

(** X20.  In what [get_merchant_statistics] returns, every merchant type
    has an amount range [[lo, hi]] with [0 < lo < hi] and a risk level
    among [low], [medium] and [high]; and the two tables have no key that
    is not a merchant type. *)
Theorem merchant_statistics_cover_types (m : string) :
  let s := get_merchant_statistics in
  (In m (merchant_types s) ->
   exists lo hi level,
     lookup String.eqb (amount_ranges s) m = Some (lo, hi) /\
     (0 < lo < hi)%Z /\
     lookup String.eqb (risk_levels s) m = Some level /\
     In level levels) /\
  (In m (map fst (amount_ranges s)) -> In m (merchant_types s)) /\
  (In m (map fst (risk_levels s)) -> In m (merchant_types s)).
Proof.
  intros s. split; [| split].
  - intros H.
    assert (A : forallb (merchant_checked s) (merchant_types s) = true)
      by (vm_compute; reflexivity).
    rewrite forallb_forall in A. specialize (A m H).
    unfold merchant_checked in A.
    destruct (lookup String.eqb (amount_ranges s) m) as [[lo hi] |];
      [| discriminate A].
    destruct (lookup String.eqb (risk_levels s) m) as [level |];
      [| discriminate A].
    apply andb_prop in A as [A A3]. apply andb_prop in A as [A1 A2].
    apply Z.ltb_lt in A1. apply Z.ltb_lt in A2.
    exists lo, hi, level.
    split; [reflexivity|]. split; [lia|]. split; [reflexivity|].
    exact (GeneratorFacts.existsb_In_string _ _ A3).
  - apply inclb_In. vm_compute. reflexivity.
  - apply inclb_In. vm_compute. reflexivity.
Qed.

End StatisticsFacts.

Module ConnectionsFacts.
Import Connections.

Lemma member_In websocket connections :
  member websocket connections = true <-> In websocket connections.
Proof.
  unfold member. rewrite existsb_exists. split.
  - intros (x & Hx & E). apply Z.eqb_eq in E. now subst.
  - intros H. exists websocket. split; [exact H | apply Z.eqb_refl].
Qed.

Lemma remove_app_fresh websocket pre connections :
  ~ In websocket pre ->
  remove websocket (pre ++ websocket :: connections) = (pre ++ connections)%list.
Proof.
  induction pre as [| c pre IH]; intros H; cbn [remove app].
  - now rewrite Z.eqb_refl.
  - destruct (Z.eqb_spec websocket c) as [-> | _].
    + exfalso. apply H. now left.
    + f_equal. apply IH. intros K. apply H. now right.
Qed.

Lemma send_all_filter send_text connections disconnected :
  send_all send_text connections disconnected
  = (disconnected ++ filter (fun c => negb (send_text c)) connections)%list.
Proof.
  revert disconnected.
  induction connections as [| c cs IH]; intros disconnected;
    cbn [send_all filter].
  - now rewrite app_nil_r.
  - destruct (send_text c); cbn [negb].
    + apply IH.
    + rewrite IH, <- app_assoc. reflexivity.
Qed.

(** Removing the connections that failed, one by one, from a list that
    starts with connections that did not. *)
Lemma remove_all_failed send_text pre connections :
  Forall (fun c => send_text c = true) pre ->
  remove_all (filter (fun c => negb (send_text c)) connections)
             (mkConnectionManager (pre ++ connections))
  = mkConnectionManager (pre ++ filter send_text connections).
Proof.
  revert pre.
  induction connections as [| c cs IH]; intros pre Hpre;
    cbn [filter remove_all].
  - reflexivity.
  - destruct (send_text c) eqn:Ec; cbn [negb].
    + replace (pre ++ c :: cs)%list with ((pre ++ [c]) ++ cs)%list
        by (rewrite <- app_assoc; reflexivity).
      rewrite IH.
      * rewrite <- app_assoc. reflexivity.
      * apply Forall_app. split; [exact Hpre | now constructor].
    + cbn [remove_all active_connections].
      assert (M : member c (pre ++ c :: cs) = true).
      { apply member_In. apply in_or_app. right. now left. }
      rewrite M.
      assert (F : ~ In c pre).
      { intros K. rewrite Forall_forall in Hpre.
        specialize (Hpre c K). congruence. }
      rewrite (remove_app_fresh c pre cs F).
      apply IH. exact Hpre.
Qed.




(** Three connections, the second of which can no longer be sent to. *)
Definition three_connected : ConnectionManager :=
  mkConnectionManager [1; 2; 3]%Z.

Definition second_fails (c : WebSocket) : bool := negb (c =? 2)%Z.

(** X22.  One call of [broadcast] sends to every connection and leaves
    exactly those whose send returned, in their order. *)
Theorem broadcast_keeps_live
    (send_text : WebSocket -> bool) (self : ConnectionManager) :
  NoDup (active_connections self) ->
  active_connections (broadcast send_text self)
  = filter send_text (active_connections self) /\
  NoDup (active_connections (broadcast send_text self)).
Proof.
  intros D. destruct self as [l]. unfold broadcast.
  cbn [active_connections] in D |- *. cbv zeta.
  rewrite send_all_filter. cbn [app].
  pose proof (remove_all_failed send_text [] l (Forall_nil _)) as R.
  cbn [app] in R. rewrite R. cbn [active_connections].
  split; [reflexivity | now apply NoDup_filter].
Qed.

Lemma broadcast_keeps_live_witness :
  NoDup (active_connections three_connected) /\
  (active_connections (broadcast second_fails three_connected)
   = filter second_fails (active_connections three_connected) /\
   NoDup (active_connections (broadcast second_fails three_connected))).
Proof.
  assert (D : NoDup (active_connections three_connected)).
  { cbn. repeat constructor; cbn; lia. }
  split; [exact D|].
  exact (broadcast_keeps_live second_fails three_connected D).
Defined.

End ConnectionsFacts.
